(** * terraform-provider-jamfpro: the CRUD handlers of three resource kinds

    A shallow embedding of
    - [internal/resources/computerextensionattributes/computerextensionattributes_resource.go]
      (validation, construct, create, read, update, delete),
    - the create handler of [internal/resources/appinstallers/crud.go],
    - the handlers of package [advancedusersearches],
    followed by the properties of the specification that concern them.

    Handlers are functions in a small state-and-trace monad.  The state holds
    the [schema.ResourceData] the handler mutates and the remote side behind
    the SDK client; the trace lists, in order, the SDK calls made (with their
    outcome) and the pauses taken. *)

From Stdlib Require Import ZArith String Ascii List Lia Bool DecimalString.
From Stdlib Require DecimalPos.
From stdpp Require Import base gmap strings list.

Local Open Scope Z_scope.

(** ** Go library functions the handlers rely on *)

Module Go.

(** The two failures of [strconv.Atoi] ([strconv.ErrSyntax], [strconv.ErrRange]). *)
Inductive NumErrorKind := ErrSyntax | ErrRange.

Definition digit_of (c : ascii) : option Z :=
  let n := Z.of_N (N_of_ascii c) in
  if (48 <=? n) && (n <=? 57) then Some (n - 48) else None.

Fixpoint parse_digits (acc : Z) (s : string) : option Z :=
  match s with
  | EmptyString => Some acc
  | String c s' =>
      match digit_of c with
      | Some d => parse_digits (10 * acc + d) s'
      | None => None
      end
  end.

Definition minInt : Z := - 2 ^ 63.
Definition maxInt : Z := 2 ^ 63 - 1.

(** [strconv.Atoi]: an optional sign, then one or more decimal digits; the
    value has to fit Go's [int] (64 bits). *)
Definition Atoi (s : string) : Z + NumErrorKind :=
  let '(neg, body) :=
    match s with
    | String "-" rest => (true, rest)
    | String "+" rest => (false, rest)
    | _ => (false, s)
    end in
  match body with
  | EmptyString => inr ErrSyntax
  | _ =>
      match parse_digits 0 body with
      | None => inr ErrSyntax
      | Some n =>
          let v := if neg then - n else n in
          if (minInt <=? v) && (v <=? maxInt) then inl v else inr ErrRange
      end
  end.

(** [strconv.Itoa], also [fmt.Sprintf("%d", n)]. *)
Definition Itoa (n : Z) : string := NilZero.string_of_int (Z.to_int n).

End Go.

(** ** Errors, messages and diagnostics *)

(** How the remote API classifies a failure. *)
Inductive ApiErrorKind := NotFound | Transient | OtherFailure.

(** Go [error] values, identified with their message.  A message built by
    [fmt.Errorf], [fmt.Sprintf] or [diag.Errorf] is kept as its format string
    and argument list, so that what a message depends on shows in the term. *)
Inductive error :=
| ApiError (kind : ApiErrorKind) (text : string)
| NumError (fn num : string) (kind : Go.NumErrorKind)
| Errorf (format : string) (args : list fmtarg)
with fmtarg :=
| ArgInt (n : Z)
| ArgStr (s : string)
| ArgErr (e : error).

(** [strconv.Atoi] with the [*strconv.NumError] it returns. *)
Definition Atoi (s : string) : Z + error :=
  match Go.Atoi s with
  | inl n => inl n
  | inr k => inr (NumError "Atoi" s k)
  end.

Module diag.

Inductive Severity := Error | Warning.

Record Diagnostic := { severity : Severity; Summary : error }.

Definition Diagnostics := list Diagnostic.

Definition FromErr (err : error) : Diagnostics :=
  [ {| severity := Error; Summary := err |} ].

Definition Errorf (format : string) (args : list fmtarg) : Diagnostics :=
  [ {| severity := Error; Summary := Errorf format args |} ].

End diag.

(** ** Terraform's resource data *)

Module schema.

(** An element of the "input_type" list: a map whose four keys, and their
    types, are fixed by the resource schema. *)
Record InputTypeMap := {
  it_type : string;
  it_platform : string;
  it_script : string;
  it_choices : list string
}.

(** What an attribute of the bag can hold. *)
Inductive Value :=
| VString (s : string)
| VBool (b : bool)
| VList (l : list InputTypeMap).

(** [schema.ResourceData] (and [schema.ResourceDiff], read only): the
    resource ID and the attribute bag, keyed by attribute name. *)
Record ResourceData := { Id : string; attrs : gmap string Value }.

Definition SetId (v : string) (d : ResourceData) : ResourceData :=
  {| Id := v; attrs := attrs d |}.

(** [d.Set(key, value)].  It fails only on a value that does not fit the
    schema type of the key; the handlers pass values of the schema's types,
    so the model has no failure, and the branches that would append the
    failure to the diagnostics are never taken. *)
Definition Set_ (key : string) (v : Value) (d : ResourceData) : ResourceData :=
  {| Id := Id d; attrs := <[key := v]> (attrs d) |}.

(** [d.Get(key)] followed by the type assertion the handler applies: an
    attribute that was never set reads as the zero value of its type. *)
Definition GetString (key : string) (d : ResourceData) : string :=
  match attrs d !! key with Some (VString s) => s | _ => "" end.

Definition GetBool (key : string) (d : ResourceData) : bool :=
  match attrs d !! key with Some (VBool b) => b | _ => false end.

Definition GetList (key : string) (d : ResourceData) : list InputTypeMap :=
  match attrs d !! key with Some (VList l) => l | _ => [] end.

(** [d.GetOk(key)] on a list attribute: the flag says whether the value
    differs from the zero value, the empty list. *)
Definition GetOkList (key : string) (d : ResourceData) : list InputTypeMap * bool :=
  let l := GetList key d in
  (l, match l with [] => false | _ => true end).

End schema.

(** ** The monad of the handlers *)

Section Monad.

Context {E W : Type}.

(** What a handler can reach: the resource data behind its [d] pointer and
    the remote behind the client. *)
Record State := { data : schema.ResourceData; remote : W }.

(** A computation returns a value, the events it caused and the new state. *)
Definition M (A : Type) : Type := State -> A * list E * State.

Definition ret {A} (a : A) : M A := fun st => (a, [], st).

Definition bind {A B} (m : M A) (k : A -> M B) : M B :=
  fun st =>
    let '(a, t1, st1) := m st in
    let '(b, t2, st2) := k a st1 in
    (b, t1 ++ t2, st2).

Definition emit (e : E) : M unit := fun st => (tt, [e], st).

Definition getData : M schema.ResourceData := fun st => (data st, [], st).

Definition modifyData (f : schema.ResourceData -> schema.ResourceData) : M unit :=
  fun st => (tt, [], {| data := f (data st); remote := remote st |}).

(** A call to the SDK: it acts on the remote only. *)
Definition call {A} (f : W -> A * W) : M A :=
  fun st => let '(a, w) := f (remote st) in
            (a, [], {| data := data st; remote := w |}).

End Monad.

Arguments State : clear implicits.
Arguments M : clear implicits.

Notation "'do' x <- m ;; k" := (bind m (fun x => k))
  (at level 10, x name, m at level 99, k at level 200, only parsing).
Notation "'do' ' p <- m ;; k" := (bind m (fun 'p => k))
  (at level 10, p pattern, m at level 99, k at level 200, only parsing).

(** ** [helper/retry] of the Terraform plugin SDK *)

Module retry.

(** [*retry.RetryError]: the error and whether it may be retried. *)
Inductive RetryError :=
| RetryableError (err : error)
| NonRetryableError (err : error).

(** The [*retry.TimeoutError] returned when the timeout expires before the
    function has returned once. *)
Definition TimeoutError : error :=
  Errorf "timeout while waiting for state to become 'success'" [].

Section RetryContext.

Context {E W V : Type}.

(** [retry.RetryContext(ctx, timeout, f)] runs [f] again and again until it
    returns nil or an error that is not retryable, or until the timeout
    expires, and then returns the error of the last run ([resultErr]), or the
    timeout error if there was no run.

    Time is not part of the model: the timeout is given as [attempts], the
    number of runs of [f] it leaves room for.  [f] is a closure; the variable
    of the enclosing function it assigns to is threaded through the runs as
    [v], and returned with the error. *)
Fixpoint RetryContextFrom (attempts : nat) (f : V -> M E W (V * option RetryError))
  (v : V) (resultErr : option error) : M E W (V * option error) :=
  match attempts with
  | O => ret (v, Some (match resultErr with
                       | Some err => err
                       | None => TimeoutError
                       end))
  | S attempts' =>
      do ' (v, rerr) <- f v ;;
      match rerr with
      | None => ret (v, None)
      | Some (RetryableError err) => RetryContextFrom attempts' f v (Some err)
      | Some (NonRetryableError err) => ret (v, Some err)
      end
  end.

Definition RetryContext (attempts : nat) (f : V -> M E W (V * option RetryError))
  (v : V) : M E W (V * option error) :=
  RetryContextFrom attempts f v None.

End RetryContext.

End retry.

(** ** Computer extension attributes *)

Module ComputerExtensionAttributes.

Import schema.

(** [jamfpro.ComputerExtensionAttributeInputType]. *)
Record ComputerExtensionAttributeInputType := {
  Type_ : string;
  Platform : string;
  Script : string;
  Choices : list string
}.

(** [jamfpro.ComputerExtensionAttributeResponse]. *)
Record ComputerExtensionAttributeResponse := {
  ID : Z;
  Name : string;
  Enabled : bool;
  Description : string;
  DataType : string;
  InputType : ComputerExtensionAttributeInputType;
  InventoryDisplay : string;
  ReconDisplay : string
}.

(** [customDiffComputerExtensionAttributes]: [None] is Go's [nil] error.
    The [switch] on the input type has no default case. *)
Definition customDiffComputerExtensionAttributes (diff : ResourceData) : option error :=
  let '(inputTypes, ok) := GetOkList "input_type" diff in
  match inputTypes with
  | [] => Some (Errorf "input_type must be provided" [])
  | inputTypeMap :: _ =>
      if negb ok then Some (Errorf "input_type must be provided" []) else
      let inputType := it_type inputTypeMap in
      let platform := it_platform inputTypeMap in
      let script := it_script inputTypeMap in
      let choices := it_choices inputTypeMap in
      if String.eqb inputType "script" then
        if negb (String.eqb platform "Mac") && negb (String.eqb platform "Windows") then
          Some (Errorf "platform must be either 'Mac' or 'Windows' when input_type is 'script'" [])
        else if String.eqb script "" then
          Some (Errorf "'script' field must be populated when input_type is 'script'" [])
        else if (0 <? length choices)%nat then
          Some (Errorf "'choices' must not be populated when input_type is 'script'" [])
        else None
      else if String.eqb inputType "Pop-up Menu" then
        if (length choices =? 0)%nat then
          Some (Errorf "'choices' must be populated when input_type is 'Pop-up Menu'" [])
        else if negb (String.eqb platform "") then
          Some (Errorf "'platform' must not be populated when input_type is 'Pop-up Menu'" [])
        else if negb (String.eqb script "") then
          Some (Errorf "'script' must not be populated when input_type is 'Pop-up Menu'" [])
        else None
      else if String.eqb inputType "Text Field" then
        if negb (String.eqb script "") then
          Some (Errorf "'script' field must not be populated when input_type is 'Text Field'" [])
        else if (0 <? length choices)%nat then
          Some (Errorf "'choices' must not be populated when input_type is 'Text Field'" [])
        else if negb (String.eqb platform "") then
          Some (Errorf "'platform' must not be populated when input_type is 'Text Field'" [])
        else None
      else None
  end.

(** [constructComputerExtensionAttribute]: [None] is the [nil] returned for an
    empty "input_type" list.  The response's [ID] is left at its zero value. *)
Definition constructComputerExtensionAttribute (d : ResourceData)
  : option ComputerExtensionAttributeResponse :=
  match GetList "input_type" d with
  | [] => None
  | inputTypeMap :: _ =>
      let inputType :=
        {| Type_ := it_type inputTypeMap;
           Platform := it_platform inputTypeMap;
           Script := it_script inputTypeMap;
           Choices := fold_left (fun acc choice => acc ++ [choice])
                                (it_choices inputTypeMap) [] |} in
      Some {| ID := 0;
              Name := GetString "name" d;
              Enabled := GetBool "enabled" d;
              Description := GetString "description" d;
              DataType := GetString "data_type" d;
              InventoryDisplay := GetString "inventory_display" d;
              ReconDisplay := GetString "recon_display" d;
              InputType := inputType |}
  end.

(** What a lookup returns: Go's pair of a pointer and an error, either of
    which can be nil. *)
Definition Lookup : Type := option ComputerExtensionAttributeResponse * option error.

(** What a create or update call returns.  The handlers dereference the
    response whenever the error is nil, so the SDK's contract that one of the
    two is set is part of the type. *)
Inductive Reply :=
| Done (r : ComputerExtensionAttributeResponse)
| Failed (err : error).

(** The methods of the SDK client the handlers call, as functions on the
    remote [W]. *)
Record Conn (W : Type) := {
  CreateComputerExtensionAttribute :
    ComputerExtensionAttributeResponse -> W -> Reply * W;
  GetComputerExtensionAttributeByID : Z -> W -> Lookup * W;
  GetComputerExtensionAttributeByName : string -> W -> Lookup * W;
  UpdateComputerExtensionAttributeByID :
    Z -> option ComputerExtensionAttributeResponse -> W -> Reply * W;
  UpdateComputerExtensionAttributeByName :
    string -> option ComputerExtensionAttributeResponse -> W -> Reply * W;
  DeleteComputerExtensionAttributeByID : Z -> W -> option error * W;
  DeleteComputerExtensionAttributeByNameByID : string -> W -> option error * W
}.

Arguments CreateComputerExtensionAttribute {W}.
Arguments GetComputerExtensionAttributeByID {W}.
Arguments GetComputerExtensionAttributeByName {W}.
Arguments UpdateComputerExtensionAttributeByID {W}.
Arguments UpdateComputerExtensionAttributeByName {W}.
Arguments DeleteComputerExtensionAttributeByID {W}.
Arguments DeleteComputerExtensionAttributeByNameByID {W}.

(** The events of a run.  [ok] tells whether the call succeeded, in the sense
    the handler tests it. *)
Inductive Event :=
| EvCreate (payload : ComputerExtensionAttributeResponse) (ok : bool)
| EvGetByID (id : Z) (ok : bool)
| EvGetByName (name : string) (ok : bool)
| EvUpdateByID (id : Z) (payload : option ComputerExtensionAttributeResponse) (ok : bool)
| EvUpdateByName (name : string) (payload : option ComputerExtensionAttributeResponse) (ok : bool)
| EvDeleteByID (id : Z) (ok : bool)
| EvDeleteByName (name : string) (ok : bool)
| EvSleep (attempt : nat).

(** The test the read applies to a lookup: [err == nil && attribute != nil]. *)
Definition found (r : Lookup) : bool :=
  match r with
  | (Some _, None) => true
  | _ => false
  end.

Definition replied (r : Reply) : bool :=
  match r with Done _ => true | Failed _ => false end.

Definition isNil (e : option error) : bool :=
  match e with None => true | Some _ => false end.

(** The state-writing part of the read (from "Safely set attributes in the
    Terraform state" to the end of the function). *)
Definition setAttributes (attribute : ComputerExtensionAttributeResponse)
  (d : ResourceData) : ResourceData :=
  let d := if String.eqb (Name attribute) "" then d
           else Set_ "name" (VString (Name attribute)) d in
  let d := Set_ "enabled" (VBool (Enabled attribute)) d in
  let d := if String.eqb (Description attribute) "" then d
           else Set_ "description" (VString (Description attribute)) d in
  let d := if String.eqb (DataType attribute) "" then d
           else Set_ "data_type" (VString (DataType attribute)) d in
  let d := if String.eqb (InventoryDisplay attribute) "" then d
           else Set_ "inventory_display" (VString (InventoryDisplay attribute)) d in
  let d := if String.eqb (ReconDisplay attribute) "" then d
           else Set_ "recon_display" (VString (ReconDisplay attribute)) d in
  let inputType :=
    {| it_type := Type_ (InputType attribute);
       it_platform := Platform (InputType attribute);
       it_script := Script (InputType attribute);
       it_choices := match Choices (InputType attribute) with
                     | [] => []
                     | c :: cs => c :: cs
                     end |} in
  Set_ "input_type" (VList [inputType]) d.

Section Handlers.

Context {W : Type}.
Variable conn : Conn W.

(** The retry bound [maxReadResourceRetries], a constant of the package that
    is declared in another file. *)
Variable maxReadResourceRetries : nat.

Local Abbreviation Act := (M Event W).

Definition CreateAttribute (a : ComputerExtensionAttributeResponse) : Act Reply :=
  do r <- call (CreateComputerExtensionAttribute conn a) ;;
  do _ <- emit (EvCreate a (replied r)) ;; ret r.

Definition GetByID (id : Z) : Act Lookup :=
  do r <- call (GetComputerExtensionAttributeByID conn id) ;;
  do _ <- emit (EvGetByID id (found r)) ;; ret r.

Definition GetByName (name : string) : Act Lookup :=
  do r <- call (GetComputerExtensionAttributeByName conn name) ;;
  do _ <- emit (EvGetByName name (found r)) ;; ret r.

Definition UpdateByID (id : Z) (a : option ComputerExtensionAttributeResponse) : Act Reply :=
  do r <- call (UpdateComputerExtensionAttributeByID conn id a) ;;
  do _ <- emit (EvUpdateByID id a (replied r)) ;; ret r.

Definition UpdateByName (name : string) (a : option ComputerExtensionAttributeResponse)
  : Act Reply :=
  do r <- call (UpdateComputerExtensionAttributeByName conn name a) ;;
  do _ <- emit (EvUpdateByName name a (replied r)) ;; ret r.

Definition DeleteByID (id : Z) : Act (option error) :=
  do r <- call (DeleteComputerExtensionAttributeByID conn id) ;;
  do _ <- emit (EvDeleteByID id (isNil r)) ;; ret r.

Definition DeleteByName (name : string) : Act (option error) :=
  do r <- call (DeleteComputerExtensionAttributeByNameByID conn name) ;;
  do _ <- emit (EvDeleteByName name (isNil r)) ;; ret r.

(** [time.Sleep(exponentialBackoffWithJitter(i))]: the pause is recorded with
    the attempt number it is computed from. *)
Definition Sleep (i : nat) : Act unit := emit (EvSleep i).

(** The retry loop of the read, [for i := 0; i < maxReadResourceRetries; i++]:
    [n] iterations are left, [i] is the loop counter and [cur] the current
    value of the pair [(attribute, err)]. *)
Fixpoint fetch (n i : nat) (attributeID : Z) (cur : Lookup) : Act Lookup :=
  match n with
  | O => ret cur
  | S n' =>
      do r <- GetByID attributeID ;;
      do r <- (if found r then ret r
            else do d <- getData ;; GetByName (GetString "name" d)) ;;
      if found r then ret r
      else do _ <- Sleep i ;; fetch n' (S i) attributeID r
  end.

(** [ResourceJamfProComputerExtensionAttributesRead]. *)
Definition Read : Act diag.Diagnostics :=
  do d <- getData ;;
  match Atoi (Id d) with
  | inr err => ret (diag.FromErr (Errorf "failed to parse attribute ID: %v" [ArgErr err]))
  | inl attributeID =>
      do r <- fetch maxReadResourceRetries 0 attributeID (None, None) ;;
      match r with
      | (Some attribute, None) =>
          do _ <- modifyData (setAttributes attribute) ;; ret []
      | _ =>
          ret (diag.Errorf
                 "Failed to fetch attribute by both ID (%d) and name after %d retries"
                 [ArgInt attributeID; ArgInt (Z.of_nat maxReadResourceRetries)])
      end
  end.

(** The loop both create and update run after their API call,
    [for i := 0; i < maxReadResourceRetries; i++], with the summary format of
    the warning as a parameter. *)
Fixpoint readBack (format : string) (n i : nat) (diags : diag.Diagnostics)
  : Act diag.Diagnostics :=
  match n with
  | O => ret diags
  | S n' =>
      do readDiags <- Read ;;
      match readDiags with
      | [] => ret []
      | _ =>
          let diags :=
            diags ++ [ {| diag.severity := diag.Warning;
                          diag.Summary := Errorf format [ArgInt (Z.of_nat i + 1)] |} ] in
          let diags := diags ++ readDiags in
          do _ <- Sleep i ;; readBack format n' (S i) diags
      end
  end.

(** [ResourceJamfProComputerExtensionAttributesCreate]. *)
Definition Create : Act diag.Diagnostics :=
  do d <- getData ;;
  match constructComputerExtensionAttribute d with
  | None =>
      ret (diag.FromErr (Errorf "failed to construct the computer extension attribute due to missing or invalid input_type" []))
  | Some attribute =>
      do r <- CreateAttribute attribute ;;
      match r with
      | Failed err => ret (diag.FromErr err)
      | Done createdAttribute =>
          do _ <- modifyData (SetId (Go.Itoa (ID createdAttribute))) ;;
          readBack "Attempted to update resource state. Resource read attempt %d failed. Retrying..."
                   maxReadResourceRetries 0 []
      end
  end.



(** [ResourceJamfProComputerExtensionAttributesUpdate]. *)
Definition Update : Act diag.Diagnostics :=
  do d <- getData ;;
  let attribute := constructComputerExtensionAttribute d in
  match Atoi (Id d) with
  | inr err => ret (diag.FromErr (Errorf "failed to parse attribute ID: %v" [ArgErr err]))
  | inl attributeID =>
      do r <- UpdateByID attributeID attribute ;;
      do r <- (match r with
            | Done _ => ret r
            | Failed _ => do d <- getData ;; UpdateByName (GetString "name" d) attribute
            end) ;;
      match r with
      | Failed err => ret (diag.FromErr err)
      | Done updatedAttribute =>
          do _ <- modifyData (SetId (Go.Itoa (ID updatedAttribute))) ;;
          readBack "Attempted to update resource state. Read attempt %d failed after update. Retrying..."
                   maxReadResourceRetries 0 []
      end
  end.

(** [ResourceJamfProComputerExtensionAttributesDelete].  The goroutine makes
    the calls and sends once, on one of two channels; the handler waits for
    that message.  The outcome is that of the calls made in sequence. *)
Definition Delete : Act diag.Diagnostics :=
  do d <- getData ;;
  match Atoi (Id d) with
  | inr err => ret (diag.FromErr (Errorf "failed to parse attribute ID: %v" [ArgErr err]))
  | inl attributeID =>
      do err <- DeleteByID attributeID ;;
      do err <- (match err with
              | None => ret None
              | Some _ => do d <- getData ;; DeleteByName (GetString "name" d)
              end) ;;
      match err with
      | Some err =>
          ret (diag.FromErr (Errorf "failed to delete Computer Extension Attribute: %v" [ArgErr err]))
      | None => do _ <- modifyData (SetId "") ;; ret []
      end
  end.

End Handlers.

(** *** The shape of a read's trace *)

(** One failed attempt of the read's loop: the lookup by ID fails, the lookup
    by name fails, and the handler pauses. *)
Definition failedAttempt (id : Z) (name : string) (i : nat) : list Event :=
  [EvGetByID id false; EvGetByName name false; EvSleep i].

(** [k] failed attempts in a row, the first with loop counter [i]. *)
Definition failedAttempts (id : Z) (name : string) (i k : nat) : list Event :=
  flat_map (failedAttempt id name) (seq i k).

(** The two ways an attempt succeeds. *)
Definition foundByID (id : Z) : list Event := [EvGetByID id true].

Definition foundByName (id : Z) (name : string) : list Event :=
  [EvGetByID id false; EvGetByName name true].

(** The events of a lookup attempt, as opposed to those of a create, update
    or delete call. *)
Definition isLookup (e : Event) : bool :=
  match e with
  | EvGetByID _ _ | EvGetByName _ _ | EvSleep _ => true
  | _ => false
  end.


(** Whether a trace holds a delete call that succeeded. *)
Definition deleted (evs : list Event) : bool :=
  existsb (fun e => match e with
                    | EvDeleteByID _ true | EvDeleteByName _ true => true
                    | _ => false
                    end) evs.

(** The five string attributes the read copies from the response, each with
    the response field it is copied from. *)
Definition stringFields : list (string * (ComputerExtensionAttributeResponse -> string)) :=
  [ ("name", Name); ("description", Description); ("data_type", DataType);
    ("inventory_display", InventoryDisplay); ("recon_display", ReconDisplay) ].

(** The "input_type" value the read writes for a response. *)
Definition inputTypeOf (a : ComputerExtensionAttributeResponse) : Value :=
  VList [ {| it_type := Type_ (InputType a);
             it_platform := Platform (InputType a);
             it_script := Script (InputType a);
             it_choices := Choices (InputType a) |} ].

(** What the read writes under [key] for the response [a], if anything. *)
Definition written (a : ComputerExtensionAttributeResponse) (key : string) : option Value :=
  let str (v : string) := if String.eqb v "" then None else Some (VString v) in
  if decide ("input_type" = key) then Some (inputTypeOf a)
  else if decide ("recon_display" = key) then str (ReconDisplay a)
  else if decide ("inventory_display" = key) then str (InventoryDisplay a)
  else if decide ("data_type" = key) then str (DataType a)
  else if decide ("description" = key) then str (Description a)
  else if decide ("enabled" = key) then Some (VBool (Enabled a))
  else if decide ("name" = key) then str (Name a)
  else None.

(** The warning the read-back loop adds for its attempt [i]. *)
Definition retryWarning (format : string) (i : nat) : diag.Diagnostic :=
  {| diag.severity := diag.Warning;
     diag.Summary := Errorf format [ArgInt (Z.of_nat i + 1)] |}.

(** The diagnostics of a read that found nothing in any attempt. *)
Definition fetchFailed (attributeID : Z) (retries : nat) : diag.Diagnostics :=
  diag.Errorf "Failed to fetch attribute by both ID (%d) and name after %d retries"
              [ArgInt attributeID; ArgInt (Z.of_nat retries)].

Definition parseFailed (err : error) : diag.Diagnostics :=
  diag.FromErr (Errorf "failed to parse attribute ID: %v" [ArgErr err]).

(** The diagnostics of a read that returns some: they depend on the stored
    ID and the retry bound only. *)
Definition readFailure (retries : nat) (d : ResourceData) : diag.Diagnostics :=
  match Atoi (Id d) with
  | inr e => parseFailed e
  | inl id => fetchFailed id retries
  end.

Definition constructFailed : diag.Diagnostics :=
  diag.FromErr (Errorf "failed to construct the computer extension attribute due to missing or invalid input_type" []).

Definition deleteFailed (err : error) : diag.Diagnostics :=
  diag.FromErr (Errorf "failed to delete Computer Extension Attribute: %v" [ArgErr err]).

Definition createFormat : string :=
  "Attempted to update resource state. Resource read attempt %d failed. Retrying...".

Definition updateFormat : string :=
  "Attempted to update resource state. Read attempt %d failed after update. Retrying...".

(** A remote that does not change: every lookup is answered from [byID] and
    [byName] and leaves the remote as it was. *)
Definition unchanging {W} (conn : Conn W) (byID : Z -> Lookup) (byName : string -> Lookup)
  : Prop :=
  (forall id w, GetComputerExtensionAttributeByID conn id w = (byID id, w)) /\
  (forall name w, GetComputerExtensionAttributeByName conn name w = (byName name, w)).


End ComputerExtensionAttributes.

(** ** Advanced user searches *)

Module AdvancedUserSearches.

Import schema.

(** The events of a run. *)
Inductive Event :=
| EvCreate (ok : bool)
| EvGetByID (id : Z) (ok : bool)
| EvDeleteByID (id : Z) (ok : bool)
| EvDeleteByName (name : string) (ok : bool).

Definition isNil (e : option error) : bool :=
  match e with None => true | Some _ => false end.

Definition isOk {A} (r : A + error) : bool :=
  match r with inl _ => true | inr _ => false end.

(** The methods of [*jamfpro.Client] the handlers call.  [Payload] is
    [*jamfpro.ResourceAdvancedUserSearch], the request body, and [Resource]
    what a lookup returns; a create returns the ID of
    [*jamfpro.ResponseAdvancedUserSearchCreatedAndUpdated]. *)
Record Client (W Payload Resource : Type) := {
  CreateAdvancedUserSearch : Payload -> W -> (Z + error) * W;
  GetAdvancedUserSearchByID : Z -> W -> (Resource + error) * W;
  DeleteAdvancedUserSearchByID : Z -> W -> option error * W;
  DeleteAdvancedUserSearchByName : string -> W -> option error * W
}.

Arguments CreateAdvancedUserSearch {W Payload Resource}.
Arguments GetAdvancedUserSearchByID {W Payload Resource}.
Arguments DeleteAdvancedUserSearchByID {W Payload Resource}.
Arguments DeleteAdvancedUserSearchByName {W Payload Resource}.

Section Handlers.

Context {W Payload Resource : Type}.
Variable client : Client W Payload Resource.

(** Functions of the package that are declared in other files;
    [PayloadName] reads the field [resource.Name]. *)
Variable constructJamfProAdvancedUserSearch : ResourceData -> Payload + error.
Variable PayloadName : Payload -> string.
Variable updateTerraformState : Resource -> M Event W diag.Diagnostics.

(** The number of runs the timeouts [d.Timeout(schema.TimeoutCreate)] and
    [d.Timeout(schema.TimeoutDelete)] leave room for. *)
Variable createAttempts deleteAttempts : nat.

Local Abbreviation Act := (M Event W).

Definition CreateSearch (p : Payload) : Act (Z + error) :=
  do r <- call (CreateAdvancedUserSearch client p) ;;
  do _ <- emit (EvCreate (isOk r)) ;; ret r.

Definition GetByID (id : Z) : Act (Resource + error) :=
  do r <- call (GetAdvancedUserSearchByID client id) ;;
  do _ <- emit (EvGetByID id (isOk r)) ;; ret r.

Definition DeleteByID (id : Z) : Act (option error) :=
  do r <- call (DeleteAdvancedUserSearchByID client id) ;;
  do _ <- emit (EvDeleteByID id (isNil r)) ;; ret r.

Definition DeleteByName (name : string) : Act (option error) :=
  do r <- call (DeleteAdvancedUserSearchByName client name) ;;
  do _ <- emit (EvDeleteByName name (isNil r)) ;; ret r.

(** Modelled from the spec: [state.HandleResourceNotFoundError], of package
    [internal/endpoints/common/state], is not among the sources.  The spec
    has: not-found errors on read are signaled to the caller as "resource
    absent", causing state removal; all other errors are surfaced verbatim.
    Absence is signaled the way Terraform reads it, by the empty ID, with a
    warning in place of the error. *)
Definition HandleResourceNotFoundError (err : error) : Act diag.Diagnostics :=
  match err with
  | ApiError NotFound _ =>
      do _ <- modifyData (SetId "") ;;
      ret [ {| diag.severity := diag.Warning;
               diag.Summary := Errorf "resource absent" [] |} ]
  | _ => ret (diag.FromErr err)
  end.

(** [resourceJamfProAdvancedUserSearchRead]. *)
Definition Read : Act diag.Diagnostics :=
  do d <- getData ;;
  let resourceID := Id d in
  match Atoi resourceID with
  | inr err =>
      ret (diag.FromErr (Errorf "error converting resource ID '%s' to int: %v"
                                [ArgStr resourceID; ArgErr err]))
  | inl resourceIDInt =>
      do r <- GetByID resourceIDInt ;;
      match r with
      | inr err => HandleResourceNotFoundError err
      | inl resource => updateTerraformState resource
      end
  end.

(** The closure the create passes to [retry.RetryContext]; it assigns the
    response to [creationResponse], [None] being the nil pointer. *)
Definition createOnce (resource : Payload) (creationResponse : option Z)
  : Act (option Z * option retry.RetryError) :=
  do r <- CreateSearch resource ;;
  match r with
  | inr apiErr => ret (None, Some (retry.RetryableError apiErr))
  | inl id => ret (Some id, None)
  end.

(** [resourceJamfProAdvancedUserSearchCreate].  A nil error from
    [RetryContext] comes with the response of the successful run, so the
    handler's dereference of [creationResponse] does not meet nil; the branch
    is there for totality. *)
Definition Create : Act diag.Diagnostics :=
  do d <- getData ;;
  match constructJamfProAdvancedUserSearch d with
  | inr err =>
      ret (diag.FromErr (Errorf "failed to construct Jamf Pro Advanced User Search: %v"
                                [ArgErr err]))
  | inl resource =>
      do ' (creationResponse, err) <-
        retry.RetryContext createAttempts (createOnce resource) None ;;
      match err, creationResponse with
      | Some err, _ =>
          ret (diag.FromErr
                 (Errorf "failed to create Jamf Pro Advanced User Search '%s' after retries: %v"
                         [ArgStr (PayloadName resource); ArgErr err]))
      | None, Some id =>
          do _ <- modifyData (SetId (Go.Itoa id)) ;;
          Read
      | None, None =>
          ret (diag.FromErr (Errorf "invalid memory address or nil pointer dereference" []))
      end
  end.

(** The closure the delete passes to [retry.RetryContext]; it assigns to no
    variable of the handler. *)
Definition deleteOnce (resourceIDInt : Z) (_ : unit)
  : Act (unit * option retry.RetryError) :=
  do apiErr <- DeleteByID resourceIDInt ;;
  match apiErr with
  | None => ret (tt, None)
  | Some _ =>
      do d <- getData ;;
      do apiErrByName <- DeleteByName (GetString "name" d) ;;
      match apiErrByName with
      | Some e => ret (tt, Some (retry.RetryableError e))
      | None => ret (tt, None)
      end
  end.

(** [resourceJamfProAdvancedUserSearchDelete]. *)
Definition Delete : Act diag.Diagnostics :=
  do d <- getData ;;
  let resourceID := Id d in
  match Atoi resourceID with
  | inr err =>
      ret (diag.FromErr (Errorf "error converting resource ID '%s' to int: %v"
                                [ArgStr resourceID; ArgErr err]))
  | inl resourceIDInt =>
      do r <- retry.RetryContext deleteAttempts (deleteOnce resourceIDInt) tt ;;
      match snd r with
      | Some err =>
          do d <- getData ;;
          ret (diag.FromErr
                 (Errorf "failed to delete Jamf Pro Advanced User Search '%s' (ID: %s) after retries: %v"
                         [ArgStr (GetString "name" d); ArgStr resourceID; ArgErr err]))
      | None =>
          do _ <- modifyData (SetId "") ;; ret []
      end
  end.

End Handlers.

(** Whether a trace holds a delete call that succeeded. *)
Definition deleted (evs : list Event) : bool :=
  existsb (fun e => match e with
                    | EvDeleteByID _ true | EvDeleteByName _ true => true
                    | _ => false
                    end) evs.

End AdvancedUserSearches.

(** ** App installers *)

Module AppInstallers.

Import schema.

(** The events of a run: the package's mutex [mu] taken and released, and the
    create call. *)
Inductive Event :=
| EvLock
| EvUnlock
| EvCreate (ok : bool).

Definition isOk {A} (r : A + error) : bool :=
  match r with inl _ => true | inr _ => false end.

Section Handlers.

(** [Payload] is [*jamfpro.ResourceJamfAppCatalogAppInstaller]. *)
Context {W Payload : Type}.

(** [client.CreateJamfAppCatalogAppInstallerDeployment]; it returns the ID of
    the response, a string. *)
Variable CreateJamfAppCatalogAppInstallerDeployment : Payload -> W -> (string + error) * W.

(** Functions declared in other files: the construct function, the field
    [resource.General.Name], and [common.Read] applied to the lookup and the
    state writer of this package, as [read] applies it. *)
Variable constructJamfProAppInstaller : ResourceData -> Payload + error.
Variable PayloadName : Payload -> string.
Variable commonRead : bool -> M Event W diag.Diagnostics.

(** The number of runs [d.Timeout(schema.TimeoutCreate)] leaves room for. *)
Variable createAttempts : nat.

Local Abbreviation Act := (M Event W).

Definition CreateDeployment (p : Payload) : Act (string + error) :=
  do r <- call (CreateJamfAppCatalogAppInstallerDeployment p) ;;
  do _ <- emit (EvCreate (isOk r)) ;; ret r.

Definition read (cleanup : bool) : Act diag.Diagnostics := commonRead cleanup.

Definition readWithCleanup : Act diag.Diagnostics := read true.


(** The closure passed to [retry.RetryContext]. *)
Definition createOnce (resource : Payload) (creationResponse : option string)
  : Act (option string * option retry.RetryError) :=
  do r <- CreateDeployment resource ;;
  match r with
  | inr apiErr => ret (None, Some (retry.RetryableError apiErr))
  | inl id => ret (Some id, None)
  end.


End Handlers.

End AppInstallers.

(** ** Sample remotes and states *)

Module Samples.

Import schema ComputerExtensionAttributes.

Definition battery : ComputerExtensionAttributeResponse :=
  {| ID := 42;
     Name := "Battery";
     Enabled := true;
     Description := "";
     DataType := "String";
     InputType := {| Type_ := "Text Field"; Platform := ""; Script := ""; Choices := [] |};
     InventoryDisplay := "General";
     ReconDisplay := "" |}.

(** The state of a resource configured as a Mac script, with ID 42. *)
Definition scriptConfig : ResourceData :=
  {| Id := "42";
     attrs := {[ "name" := VString "Battery";
                 "enabled" := VBool true;
                 "description" := VString "charge level";
                 "input_type" := VList [ {| it_type := "script";
                                            it_platform := "Mac";
                                            it_script := "pmset -g batt";
                                            it_choices := [] |} ] ]} |}.

(** The request body the construct function builds from [scriptConfig]. *)
Definition scriptPayload : ComputerExtensionAttributeResponse :=
  {| ID := 0;
     Name := "Battery";
     Enabled := true;
     Description := "charge level";
     DataType := "";
     InputType := {| Type_ := "script"; Platform := "Mac"; Script := "pmset -g batt";
                     Choices := [] |};
     InventoryDisplay := "";
     ReconDisplay := "" |}.

(** The same resource after an import with an ID that is no number. *)
Definition importedConfig : ResourceData :=
  {| Id := "abc"; attrs := attrs scriptConfig |}.

(** A remote that counts the calls it has received.  Call number [n]
    (from 0) fails when [fails n], with an error of the given kind whose text
    is [n]; every other call succeeds and answers with [a]. *)
Definition scripted (fails : nat -> bool) (kind : ApiErrorKind)
  (a : ComputerExtensionAttributeResponse) : Conn nat :=
  let failure n := ApiError kind (Go.Itoa (Z.of_nat n)) in
  let reply n := if fails n then Failed (failure n) else Done a in
  let lookup n : Lookup := if fails n then (None, Some (failure n)) else (Some a, None) in
  let status n := if fails n then Some (failure n) else None in
  {| CreateComputerExtensionAttribute := fun _ n => (reply n, S n);
     GetComputerExtensionAttributeByID := fun _ n => (lookup n, S n);
     GetComputerExtensionAttributeByName := fun _ n => (lookup n, S n);
     UpdateComputerExtensionAttributeByID := fun _ _ n => (reply n, S n);
     UpdateComputerExtensionAttributeByName := fun _ _ n => (reply n, S n);
     DeleteComputerExtensionAttributeByID := fun _ n => (status n, S n);
     DeleteComputerExtensionAttributeByNameByID := fun _ n => (status n, S n) |}.

(** The resource has been deleted outside Terraform: every call is answered
    with not-found. *)
Definition gone : Conn nat := scripted (fun _ => true) NotFound battery.

(** The first [k] calls meet a transient failure. *)
Definition flaky (k : nat) : Conn nat := scripted (fun n => (n <? k)%nat) Transient battery.

(** A remote that holds the one attribute [a] and does not change: how it
    answers a lookup by ID and by name. *)
Definition holdingByID (a : ComputerExtensionAttributeResponse) (id : Z) : Lookup :=
  if (id =? ID a)%Z then (Some a, None) else (None, Some (ApiError NotFound "404")).

Definition holdingByName (a : ComputerExtensionAttributeResponse) (name : string) : Lookup :=
  if String.eqb name (Name a) then (Some a, None)
  else (None, Some (ApiError NotFound "404")).

Definition holding (a : ComputerExtensionAttributeResponse) : Conn unit :=
  {| CreateComputerExtensionAttribute := fun _ w => (Done a, w);
     GetComputerExtensionAttributeByID := fun id w => (holdingByID a id, w);
     GetComputerExtensionAttributeByName := fun name w => (holdingByName a name, w);
     UpdateComputerExtensionAttributeByID := fun _ _ w => (Done a, w);
     UpdateComputerExtensionAttributeByName := fun _ _ w => (Done a, w);
     DeleteComputerExtensionAttributeByID := fun _ w => (None, w);
     DeleteComputerExtensionAttributeByNameByID := fun _ w => (None, w) |}.

(** A remote of advanced user searches that counts its calls; call number
    [n] fails when [fails n].  The payload is the search's name. *)
Definition searches (fails : nat -> bool) : AdvancedUserSearches.Client nat string unit :=
  let failure n := ApiError Transient (Go.Itoa (Z.of_nat n)) in
  {| AdvancedUserSearches.CreateAdvancedUserSearch :=
       fun _ n => (if fails n then inr (failure n) else inl 7, S n);
     AdvancedUserSearches.GetAdvancedUserSearchByID :=
       fun _ n => (if fails n then inr (failure n) else inl tt, S n);
     AdvancedUserSearches.DeleteAdvancedUserSearchByID :=
       fun _ n => (if fails n then Some (failure n) else None, S n);
     AdvancedUserSearches.DeleteAdvancedUserSearchByName :=
       fun _ n => (if fails n then Some (failure n) else None, S n) |}.

(** The construct function and the state writer of the sample searches: the
    payload is the configured name, and the writer writes nothing. *)
Definition constructSearch (d : ResourceData) : string + error :=
  inl (GetString "name" d).

Definition writeNothing (_ : unit) : M AdvancedUserSearches.Event nat diag.Diagnostics :=
  ret [].

End Samples.


(** ** The validation of "data_type" *)

Module regexp.

(** The part of Go's regular expressions that the package's one pattern
    uses: a sequence of items, each a one-byte atom repeated a fixed number
    of times, anchored at both ends of the text ([^] and [$]). *)
Inductive Atom :=
| Literal (c : ascii)
| Digit.

(** [\d] is an ASCII digit. *)
Definition isDigit (c : ascii) : bool :=
  let n := N_of_ascii c in ((48 <=? n) && (n <=? 57))%N.

Definition matchAtom (a : Atom) (c : ascii) : bool :=
  match a with
  | Literal l => Ascii.eqb c l
  | Digit => isDigit c
  end.

(** [a{n}] at the head of [s]: what is left of [s], if it matches. *)
Fixpoint matchRepeat (a : Atom) (n : nat) (s : string) : option string :=
  match n with
  | O => Some s
  | S n' =>
      match s with
      | String c rest => if matchAtom a c then matchRepeat a n' rest else None
      | EmptyString => None
      end
  end.

(** The whole of [s] against the items of the pattern. *)
Fixpoint matchItems (items : list (Atom * nat)) (s : string) : bool :=
  match items with
  | [] => match s with EmptyString => true | _ => false end
  | (a, n) :: items' =>
      match matchRepeat a n s with
      | Some rest => matchItems items' rest
      | None => false
      end
  end.

(** The atoms of a pattern, one for each byte of a text that matches. *)
Definition atoms (items : list (Atom * nat)) : list Atom :=
  flat_map (fun item => repeat (fst item) (snd item)) items.

End regexp.

Module DataType.

Import regexp.

(** [datePattern], [^\d{4}-\d{2}-\d{2} \d{2}:\d{2}:\d{2}$]. *)
Definition datePattern : list (Atom * nat) :=
  [ (Digit, 4%nat); (Literal "-", 1%nat); (Digit, 2%nat); (Literal "-", 1%nat);
    (Digit, 2%nat); (Literal " ", 1%nat); (Digit, 2%nat); (Literal ":", 1%nat);
    (Digit, 2%nat); (Literal ":", 1%nat); (Digit, 2%nat) ].

(** [validateDataType]: the warnings and the errors. *)
Definition validateDataType (value key : string) : list string * list error :=
  if negb (String.eqb value "String") && negb (String.eqb value "Integer")
     && negb (matchItems datePattern value)
  then ([], [Errorf "%q must be 'String', 'Integer', or 'YYYY-MM-DD hh:mm:ss' format, got: %s"
                    [ArgStr key; ArgStr value]])
  else ([], []).

End DataType.

(** ** Smart mobile device groups *)

Module SmartMobileGroups.

Import schema.

(** An element of the "criteria" list: a map whose keys, and their types,
    are those the function asserts. *)
Record CriterionData := {
  cd_name : string;
  cd_priority : Z;
  cd_and_or : string;
  cd_search_type : string;
  cd_value : string;
  cd_opening_paren : bool;
  cd_closing_paren : bool
}.

(** [jamfpro.SharedSubsetCriteria]. *)
Record SharedSubsetCriteria := {
  Name : string;
  Priority : Z;
  AndOr : string;
  SearchType : string;
  Value : string;
  OpeningParen : bool;
  ClosingParen : bool
}.

(** [jamfpro.ComputerGroupSubsetContainerCriteria]. *)
Record ComputerGroupSubsetContainerCriteria := {
  Size : Z;
  Criterion : list SharedSubsetCriteria
}.

(** The criterion the loop builds from one element of the list. *)
Definition criterionOf (criterionData : CriterionData) : SharedSubsetCriteria :=
  {| Name := cd_name criterionData;
     Priority := cd_priority criterionData;
     AndOr := cd_and_or criterionData;
     SearchType := cd_search_type criterionData;
     Value := cd_value criterionData;
     OpeningParen := cd_opening_paren criterionData;
     ClosingParen := cd_closing_paren criterionData |}.

(** [constructMobileGroupSubsetContainerCriteria]: the size is set first, and
    the loop appends one criterion for each element of the list. *)
Definition constructMobileGroupSubsetContainerCriteria (criteriaList : list CriterionData)
  : ComputerGroupSubsetContainerCriteria :=
  let criteria := {| Size := Z.of_nat (length criteriaList); Criterion := [] |} in
  fold_left
    (fun criteria criterionData =>
       {| Size := Size criteria;
          Criterion := Criterion criteria ++ [criterionOf criterionData] |})
    criteriaList criteria.

End SmartMobileGroups.

(** ** The update of an advanced user search *)

Section EventMap.

Context {E E' W : Type}.

(** A computation whose events are written in another vocabulary. *)
Definition mapEvents (f : E -> E') {A} (m : M E W A) : M E' W A :=
  fun st => let '(a, t, st') := m st in (a, map f t, st').

End EventMap.

Module AdvancedUserSearchesUpdate.

Import schema.

(** The events of an update: the update call, and the events of the read
    that follows. *)
Inductive Event :=
| EvUpdateByID (id : Z) (ok : bool)
| EvRead (e : AdvancedUserSearches.Event).

Section Handler.

Context {W Payload Resource : Type}.
Variable client : AdvancedUserSearches.Client W Payload Resource.

(** [client.UpdateAdvancedUserSearchByID]; the handler drops its response. *)
Variable UpdateAdvancedUserSearchByID : Z -> Payload -> W -> option error * W.

Variable constructJamfProAdvancedUserSearch : ResourceData -> Payload + error.
Variable PayloadName : Payload -> string.
Variable updateTerraformState : Resource -> M AdvancedUserSearches.Event W diag.Diagnostics.

(** The number of runs [d.Timeout(schema.TimeoutUpdate)] leaves room for. *)
Variable updateAttempts : nat.

Local Abbreviation Act := (M Event W).

Definition UpdateByID (id : Z) (p : Payload) : Act (option error) :=
  do r <- call (UpdateAdvancedUserSearchByID id p) ;;
  do _ <- emit (EvUpdateByID id (AdvancedUserSearches.isNil r)) ;; ret r.

(** The closure the update passes to [retry.RetryContext]. *)
Definition updateOnce (resourceIDInt : Z) (resource : Payload) (_ : unit)
  : Act (unit * option retry.RetryError) :=
  do apiErr <- UpdateByID resourceIDInt resource ;;
  match apiErr with
  | Some e => ret (tt, Some (retry.RetryableError e))
  | None => ret (tt, None)
  end.

(** [resourceJamfProAdvancedUserSearchUpdate]. *)
Definition Update : Act diag.Diagnostics :=
  do d <- getData ;;
  let resourceID := Id d in
  match Atoi resourceID with
  | inr err =>
      ret (diag.FromErr (Errorf "error converting resource ID '%s' to int: %v"
                                [ArgStr resourceID; ArgErr err]))
  | inl resourceIDInt =>
      match constructJamfProAdvancedUserSearch d with
      | inr err =>
          ret (diag.FromErr
                 (Errorf "failed to construct Jamf Pro Advanced User Search for update: %v"
                         [ArgErr err]))
      | inl resource =>
          do r <- retry.RetryContext updateAttempts (updateOnce resourceIDInt resource) tt ;;
          match snd r with
          | Some err =>
              ret (diag.FromErr
                     (Errorf "failed to update Jamf Pro Advanced User Search '%s' (ID: %s) after retries: %v"
                             [ArgStr (PayloadName resource); ArgStr resourceID; ArgErr err]))
          | None =>
              mapEvents EvRead (AdvancedUserSearches.Read client updateTerraformState)
          end
      end
  end.

End Handler.

End AdvancedUserSearchesUpdate.

(** ** More shapes of traces *)

Module Traces.

Import ComputerExtensionAttributes.

(** [k] reads in a row of the read-back loop that all failed, the first with
    loop counter [i]: each is [n] failed attempts, and is followed by the
    pause of the loop. *)
Definition failedReads (id : Z) (name : string) (n i k : nat) : list Event :=
  flat_map (fun j => failedAttempts id name 0 n ++ [EvSleep j]) (seq i k).

(** [k] runs in a row of the closure of the advanced user search delete in
    which both deletions failed. *)
Definition failedDeletes (id : Z) (name : string) (k : nat)
  : list AdvancedUserSearches.Event :=
  concat (repeat [AdvancedUserSearches.EvDeleteByID id false;
                  AdvancedUserSearches.EvDeleteByName name false] k).

End Traces.

(** ** More samples *)

Module MoreSamples.

Import schema.

(** Two criteria of a smart group. *)
Definition criteria : list SmartMobileGroups.CriterionData :=
  [ {| SmartMobileGroups.cd_name := "Model";
       SmartMobileGroups.cd_priority := 0;
       SmartMobileGroups.cd_and_or := "and";
       SmartMobileGroups.cd_search_type := "like";
       SmartMobileGroups.cd_value := "iPad";
       SmartMobileGroups.cd_opening_paren := false;
       SmartMobileGroups.cd_closing_paren := false |};
    {| SmartMobileGroups.cd_name := "OS Version";
       SmartMobileGroups.cd_priority := 1;
       SmartMobileGroups.cd_and_or := "or";
       SmartMobileGroups.cd_search_type := "is";
       SmartMobileGroups.cd_value := "17";
       SmartMobileGroups.cd_opening_paren := false;
       SmartMobileGroups.cd_closing_paren := false |} ].

(** A state whose "input_type" list is empty. *)
Definition bareConfig : ResourceData :=
  {| Id := "42"; attrs := {[ "name" := VString "Battery" ]} |}.

(** An update call of advanced user searches that fails on its first [k]
    calls, over the counting remote of [Samples.searches]. *)
Definition searchUpdate (k : nat) (_ : Z) (_ : string) (n : nat) : option error * nat :=
  (if (n <? k)%nat then Some (ApiError Transient (Go.Itoa (Z.of_nat n))) else None, S n).

(** A remote of computer extension attributes on which the first call, the
    create, succeeds, and every later call meets a transient failure. *)
Definition lostAfterCreate : ComputerExtensionAttributes.Conn nat :=
  Samples.scripted (fun n => (0 <? n)%nat) Transient Samples.battery.

End MoreSamples.

(** * Properties *)

(** ** Computer extension attributes *)

Section ComputerExtensionAttributesFacts.

Import schema ComputerExtensionAttributes.

Context {W : Type}.
Variable conn : Conn W.
Variable N : nat.

Local Abbreviation St := (State W).

Lemma GetByID_run id (st : St) :
  GetByID conn id st =
  (let r := GetComputerExtensionAttributeByID conn id (remote st) in
   (fst r, [EvGetByID id (found (fst r))], {| data := data st; remote := snd r |})).
Proof.
  unfold GetByID, bind, call, emit, ret.
  now destruct (GetComputerExtensionAttributeByID conn id (remote st)).
Qed.

Lemma GetByName_run name (st : St) :
  GetByName conn name st =
  (let r := GetComputerExtensionAttributeByName conn name (remote st) in
   (fst r, [EvGetByName name (found (fst r))], {| data := data st; remote := snd r |})).
Proof.
  unfold GetByName, bind, call, emit, ret.
  now destruct (GetComputerExtensionAttributeByName conn name (remote st)).
Qed.

Lemma failedAttempts_S id name i k :
  failedAttempts id name i (S k) = failedAttempt id name i ++ failedAttempts id name (S i) k.
Proof. reflexivity. Qed.

(** One turn of the read's loop, by the outcome of its two lookups. *)
Lemma fetch_S n i id cur (st : St) :
  fetch conn (S n) i id cur st =
  (let r1 := GetComputerExtensionAttributeByID conn id (remote st) in
   if found (fst r1) then
     (fst r1, foundByID id, {| data := data st; remote := snd r1 |})
   else
     let name := GetString "name" (data st) in
     let r2 := GetComputerExtensionAttributeByName conn name (snd r1) in
     if found (fst r2) then
       (fst r2, foundByName id name, {| data := data st; remote := snd r2 |})
     else
       let '(r, evs, st') :=
         fetch conn n (S i) id (fst r2) {| data := data st; remote := snd r2 |} in
       (r, failedAttempt id name i ++ evs, st')).
Proof.
  cbn [fetch]. unfold bind at 1. rewrite GetByID_run. cbv zeta.
  destruct (GetComputerExtensionAttributeByID conn id (remote st)) as [r1 w1]. cbn [fst snd].
  destruct (found r1) eqn:F1.
  - unfold bind, ret. cbn. rewrite F1. reflexivity.
  - unfold bind at 1. unfold bind at 1. unfold getData at 1. rewrite GetByName_run. cbv zeta.
    cbn [data remote].
    destruct (GetComputerExtensionAttributeByName conn _ w1) as [r2 w2]. cbn [fst snd].
    destruct (found r2) eqn:F2.
    + unfold ret. cbn. reflexivity.
    + unfold bind, Sleep, emit. cbn.
      destruct (fetch conn n (S i) id r2 _) as [[r evs] st']. reflexivity.
Qed.

(** What a run of the read's loop looks like: it leaves the resource data
    alone, and either some attempt found the attribute, after a number of
    failed attempts, or all attempts failed. *)
Lemma fetch_shape n : forall i id cur (st : St) r evs st',
  found cur = false ->
  fetch conn n i id cur st = (r, evs, st') ->
  data st' = data st /\
  ((found r = true /\
    exists k tail, (k < n)%nat /\
      (tail = foundByID id \/ tail = foundByName id (GetString "name" (data st))) /\
      evs = failedAttempts id (GetString "name" (data st)) i k ++ tail)
   \/
   (found r = false /\ evs = failedAttempts id (GetString "name" (data st)) i n)).
Proof.
  induction n as [|n IH]; intros i id cur st r evs st' Hcur H.
  - cbn in H. injection H as <- <- <-. split; [reflexivity|]. right. now split.
  - rewrite fetch_S in H. cbv zeta in H.
    destruct (GetComputerExtensionAttributeByID conn id (remote st)) as [r1 w1].
    cbn [fst snd] in H. destruct (found r1) eqn:F1.
    { injection H as <- <- <-. split; [reflexivity|]. left. split; [assumption|].
      exists 0%nat, (foundByID id). split; [lia|]. split; [now left|]. reflexivity. }
    destruct (GetComputerExtensionAttributeByName conn _ w1) as [r2 w2].
    cbn [fst snd] in H. destruct (found r2) eqn:F2.
    { injection H as <- <- <-. split; [reflexivity|]. left. split; [assumption|].
      exists 0%nat, (foundByName id (GetString "name" (data st))).
      split; [lia|]. split; [now right|]. reflexivity. }
    destruct (fetch conn n (S i) id r2 _) as [[r' evs'] st''] eqn:Hrec.
    injection H as <- <- <-.
    apply IH in Hrec; [|assumption]. cbn [data] in Hrec.
    destruct Hrec as [Hd [(Hf & k & tail & Hk & Htail & ->) | (Hf & ->)]].
    + split; [assumption|]. left. split; [assumption|].
      exists (S k), tail. split; [lia|]. split; [assumption|].
      rewrite failedAttempts_S, <- app_assoc. reflexivity.
    + split; [assumption|]. right. split; [assumption|].
      now rewrite failedAttempts_S.
Qed.

(** The read, by the outcome of its loop. *)
Lemma Read_run (st : St) :
  Read conn N st =
  match Atoi (Id (data st)) with
  | inr err => (parseFailed err, [], st)
  | inl attributeID =>
      let '(r, evs, st1) := fetch conn N 0 attributeID (None, None) st in
      match r with
      | (Some attribute, None) =>
          ([], evs, {| data := setAttributes attribute (data st1); remote := remote st1 |})
      | _ => (fetchFailed attributeID N, evs, st1)
      end
  end.
Proof.
  unfold Read, bind at 1, getData at 1. cbn [data].
  destruct (Atoi (Id (data st))) as [id|err]; [|reflexivity].
  unfold bind at 1. destruct (fetch conn N 0 id (None, None) st) as [[r evs] st1].
  destruct r as [[a|] [e|]]; unfold bind, modifyData, ret; cbn; rewrite ?app_nil_r; reflexivity.
Qed.

(** *** The state the read writes *)

Lemma choices_match (l : list string) :
  match l with [] => [] | c :: cs => c :: cs end = l.
Proof. now destruct l. Qed.

Lemma setAttributes_Id a d : Id (setAttributes a d) = Id d.
Proof.
  unfold setAttributes.
  repeat match goal with |- context [if ?b then _ else _] => destruct b end; reflexivity.
Qed.

Lemma lookup_setAttributes a d key :
  attrs (setAttributes a d) !! key =
  match written a key with Some v => Some v | None => attrs d !! key end.
Proof.
  unfold setAttributes, written, inputTypeOf. rewrite choices_match.
  repeat match goal with |- context [String.eqb ?x ""] => destruct (String.eqb x "") end;
    cbn [attrs Set_]; rewrite ?lookup_insert; repeat case_decide; subst; try reflexivity;
    congruence.
Qed.



(** *** The read, case by case *)

Lemma found_true (r : Lookup) : found r = true -> exists a, r = (Some a, None).
Proof. destruct r as [[a|] [e|]]; try discriminate. now exists a. Qed.

Lemma found_false_Read (r : Lookup) : found r = false ->
  forall (A : Type) (x : ComputerExtensionAttributeResponse -> A) (y : A),
  match r with (Some a, None) => x a | _ => y end = y.
Proof. now destruct r as [[a|] [e|]]. Qed.

Lemma fetchFailed_nonempty id n : fetchFailed id n <> [].
Proof. discriminate. Qed.

Lemma parseFailed_nonempty e : parseFailed e <> [].
Proof. discriminate. Qed.

(** A read either stops at an ID that is no number, or finds the attribute
    in some attempt and writes it to the state, or fails in all attempts and
    leaves the state alone. *)
Lemma Read_cases (st : St) diags evs st' :
  Read conn N st = (diags, evs, st') ->
  (exists e, Atoi (Id (data st)) = inr e /\ diags = parseFailed e /\ evs = [] /\ st' = st)
  \/
  (exists id, Atoi (Id (data st)) = inl id /\
     let name := GetString "name" (data st) in
     ((exists a k, diags = [] /\ (k < N)%nat /\
         fst (fst (fetch conn N 0 id (None, None) st)) = (Some a, None) /\
         (evs = failedAttempts id name 0 k ++ foundByID id \/
          evs = failedAttempts id name 0 k ++ foundByName id name) /\
         data st' = setAttributes a (data st))
      \/
      (diags = fetchFailed id N /\ evs = failedAttempts id name 0 N /\
       data st' = data st))).
Proof.
  rewrite Read_run. destruct (Atoi (Id (data st))) as [id|e].
  - intros H. right. exists id. split; [reflexivity|]. cbv zeta.
    destruct (fetch conn N 0 id (None, None) st) as [[r evs0] st1] eqn:Hf.
    pose proof (fetch_shape N 0 id (None, None) st r evs0 st1 eq_refl Hf) as [Hd Hs].
    destruct Hs as [(Hfound & k & tail & Hk & Htail & Hevs) | (Hfound & Hevs)].
    + apply found_true in Hfound as [a ->]. injection H as <- <- <-. left.
      exists a, k. cbn [data fst]. rewrite Hd.
      repeat split; try assumption; try reflexivity.
      destruct Htail as [-> | ->]; [left | right]; assumption.
    + rewrite (found_false_Read r Hfound) in H. injection H as <- <- <-. right.
      now repeat split.
  - intros [= <- <- <-]. left. now exists e.
Qed.

Lemma Read_keeps_Id (st : St) : Id (data (snd (Read conn N st))) = Id (data st).
Proof.
  destruct (Read conn N st) as [[diags evs] st'] eqn:H. cbn [snd].
  apply Read_cases in H as [(e & _ & _ & _ & ->) | (id & _ & H)]; [reflexivity|].
  destruct H as [(a & k & _ & _ & _ & _ & ->) | (_ & _ & ->)];
    [apply setAttributes_Id | reflexivity].
Qed.

(** A read that returns diagnostics has left the resource data alone. *)
Lemma Read_failure_keeps_data (st : St) diags evs st' :
  Read conn N st = (diags, evs, st') -> diags <> [] -> data st' = data st.
Proof.
  intros H Hne.
  apply Read_cases in H as [(e & _ & _ & _ & ->) | (id & _ & H)]; [reflexivity|].
  destruct H as [(a & k & -> & _) | (_ & _ & ->)]; [congruence | reflexivity].
Qed.

Lemma Read_failure_diags (st : St) diags evs st' :
  Read conn N st = (diags, evs, st') -> diags <> [] -> diags = readFailure N (data st).
Proof.
  intros H Hne. unfold readFailure.
  apply Read_cases in H as [(e & -> & -> & _) | (id & -> & H)]; [reflexivity|].
  destruct H as [(a & k & -> & _) | (-> & _)]; [congruence | reflexivity].
Qed.

(** The trace of a read whose stored ID is a number. *)
Lemma Read_trace (st : St) id diags evs st' :
  Atoi (Id (data st)) = inl id ->
  Read conn N st = (diags, evs, st') ->
  let name := GetString "name" (data st) in
  (diags = [] /\ exists k, (k < N)%nat /\
     (evs = failedAttempts id name 0 k ++ foundByID id \/
      evs = failedAttempts id name 0 k ++ foundByName id name))
  \/ (diags <> [] /\ evs = failedAttempts id name 0 N).
Proof.
  intros Hid H name.
  apply Read_cases in H as [(e & He & _) | (id' & Hid' & H)]; [congruence|].
  assert (id' = id) as -> by congruence.
  destruct H as [(a & k & -> & Hk & _ & Hevs & _) | (-> & -> & _)].
  - left. split; [reflexivity|]. now exists k.
  - right. split; [apply fetchFailed_nonempty | reflexivity].
Qed.

Lemma failedAttempts_lookup id name i k :
  Forall (fun e => isLookup e = true) (failedAttempts id name i k).
Proof.
  revert i. induction k as [|k IH]; intros i; [constructor|].
  rewrite failedAttempts_S. apply Forall_app. split; [|apply IH].
  repeat constructor.
Qed.

(** A read makes lookups and pauses, nothing else. *)
Lemma Read_events_lookup (st : St) diags evs st' :
  Read conn N st = (diags, evs, st') -> Forall (fun e => isLookup e = true) evs.
Proof.
  intros H. apply Read_cases in H as [(e & _ & _ & -> & _) | (id & _ & H)]; [constructor|].
  destruct H as [(a & k & _ & _ & _ & [-> | ->] & _) | (_ & -> & _)];
    try (apply Forall_app; split); try apply failedAttempts_lookup; repeat constructor.
Qed.

(** *** The read-back loop of create and update *)

Lemma readBack_S format n i acc (st : St) :
  readBack conn N format (S n) i acc st =
  (let '(readDiags, evs, st1) := Read conn N st in
   match readDiags with
   | [] => ([], evs, st1)
   | _ =>
       let '(diags, evs', st') :=
         readBack conn N format n (S i) ((acc ++ [retryWarning format i]) ++ readDiags) st1 in
       (diags, evs ++ EvSleep i :: evs', st')
   end).
Proof.
  cbn [readBack]. unfold bind at 1. destruct (Read conn N st) as [[readDiags evs] st1].
  destruct readDiags as [|x l].
  - unfold ret. now rewrite app_nil_r.
  - unfold bind, Sleep, emit. fold (retryWarning format i).
    now destruct (readBack conn N format n (S i) _ st1) as [[diags evs'] st'].
Qed.

(** The loop ends either right after a read that returned no diagnostics, or
    after [n] reads that all returned some, with what it has gathered: for
    each read a warning, then the diagnostics of that read. *)
Lemma readBack_shape format n : forall i acc (st : St) diags evs st',
  readBack conn N format n i acc st = (diags, evs, st') ->
  Forall (fun e => isLookup e = true) evs /\
  ((diags = [] /\ exists st0 evs0, data st0 = data st /\ Read conn N st0 = ([], evs0, st'))
   \/
   (diags = acc ++ flat_map (fun j => retryWarning format j :: readFailure N (data st)) (seq i n)
    /\ data st' = data st)).
Proof.
  induction n as [|n IH]; intros i acc st diags evs st' H.
  - cbn in H. injection H as <- <- <-. split; [constructor|]. right.
    cbn. now rewrite app_nil_r.
  - rewrite readBack_S in H. destruct (Read conn N st) as [[rd evs1] st1] eqn:HR.
    pose proof (Read_events_lookup _ _ _ _ HR) as Hl.
    destruct rd as [|x l].
    + injection H as <- <- <-. split; [assumption|]. left. split; [reflexivity|].
      now exists st, evs1.
    + destruct (readBack conn N format n (S i) _ st1) as [[diags2 evs2] st2] eqn:HB.
      injection H as <- <- <-.
      assert (Hne : x :: l <> []) by discriminate.
      pose proof (Read_failure_keeps_data _ _ _ _ HR Hne) as Hd.
      pose proof (Read_failure_diags _ _ _ _ HR Hne) as Hrd.
      apply IH in HB as [Hl2 HB]. split.
      { apply Forall_app. split; [assumption|]. constructor; [reflexivity | assumption]. }
      destruct HB as [(-> & st0 & evs0 & Hd0 & HR0) | (-> & Hd2)].
      * left. split; [reflexivity|]. exists st0, evs0. split; [congruence | assumption].
      * right. split; [|congruence]. rewrite Hd, Hrd. cbn [seq flat_map].
        rewrite <- !app_assoc. reflexivity.
Qed.

(** *** Create, update and delete, by the outcome of their calls *)

Lemma Create_run (st : St) :
  Create conn N st =
  match constructComputerExtensionAttribute (data st) with
  | None => (constructFailed, [], st)
  | Some attribute =>
      let r := CreateComputerExtensionAttribute conn attribute (remote st) in
      match fst r with
      | Failed err =>
          (diag.FromErr err, [EvCreate attribute false],
           {| data := data st; remote := snd r |})
      | Done createdAttribute =>
          let '(diags, evs, st') :=
            readBack conn N createFormat N 0 []
              {| data := SetId (Go.Itoa (ID createdAttribute)) (data st); remote := snd r |} in
          (diags, EvCreate attribute true :: evs, st')
      end
  end.
Proof.
  unfold Create, bind at 1, getData at 1. cbn [data].
  destruct (constructComputerExtensionAttribute (data st)) as [attribute|]; [|reflexivity].
  unfold bind at 1, CreateAttribute, bind at 1, bind at 1, call, emit, ret. cbv zeta.
  destruct (CreateComputerExtensionAttribute conn attribute (remote st)) as [[c|err] w];
    cbn [fst snd replied]; [|reflexivity].
  unfold bind, modifyData. cbn [data remote]. fold createFormat.
  now destruct (readBack conn N createFormat N 0 [] _) as [[diags evs] st'].
Qed.

Lemma Delete_run (st : St) :
  Delete conn st =
  match Atoi (Id (data st)) with
  | inr err => (parseFailed err, [], st)
  | inl attributeID =>
      let r1 := DeleteComputerExtensionAttributeByID conn attributeID (remote st) in
      match fst r1 with
      | None =>
          ([], [EvDeleteByID attributeID true],
           {| data := SetId "" (data st); remote := snd r1 |})
      | Some _ =>
          let name := GetString "name" (data st) in
          let r2 := DeleteComputerExtensionAttributeByNameByID conn name (snd r1) in
          match fst r2 with
          | None =>
              ([], [EvDeleteByID attributeID false; EvDeleteByName name true],
               {| data := SetId "" (data st); remote := snd r2 |})
          | Some err =>
              (deleteFailed err, [EvDeleteByID attributeID false; EvDeleteByName name false],
               {| data := data st; remote := snd r2 |})
          end
      end
  end.
Proof.
  unfold Delete, bind at 1, getData at 1. cbn [data].
  destruct (Atoi (Id (data st))) as [id|err]; [|reflexivity].
  unfold DeleteByID, DeleteByName, bind, call, emit, ret, getData, modifyData. cbv zeta.
  destruct (DeleteComputerExtensionAttributeByID conn id (remote st)) as [[e1|] w1];
    cbn [fst snd isNil data remote]; [|reflexivity].
  destruct (DeleteComputerExtensionAttributeByNameByID conn _ w1) as [[e2|] w2];
    cbn [fst snd isNil data remote]; reflexivity.
Qed.

Lemma Update_run (st : St) :
  Update conn N st =
  match Atoi (Id (data st)) with
  | inr err => (parseFailed err, [], st)
  | inl attributeID =>
      let attribute := constructComputerExtensionAttribute (data st) in
      let name := GetString "name" (data st) in
      let r1 := UpdateComputerExtensionAttributeByID conn attributeID attribute (remote st) in
      let readBackFrom updatedAttribute w :=
        readBack conn N updateFormat N 0 []
          {| data := SetId (Go.Itoa (ID updatedAttribute)) (data st); remote := w |} in
      match fst r1 with
      | Done updatedAttribute =>
          let '(diags, evs, st') := readBackFrom updatedAttribute (snd r1) in
          (diags, EvUpdateByID attributeID attribute true :: evs, st')
      | Failed _ =>
          let r2 := UpdateComputerExtensionAttributeByName conn name attribute (snd r1) in
          match fst r2 with
          | Done updatedAttribute =>
              let '(diags, evs, st') := readBackFrom updatedAttribute (snd r2) in
              (diags,
               EvUpdateByID attributeID attribute false
                 :: EvUpdateByName name attribute true :: evs, st')
          | Failed err =>
              (diag.FromErr err,
               [EvUpdateByID attributeID attribute false; EvUpdateByName name attribute false],
               {| data := data st; remote := snd r2 |})
          end
      end
  end.
Proof.
  unfold Update, bind at 1, getData at 1. cbn [data].
  destruct (Atoi (Id (data st))) as [id|err]; [|reflexivity].
  unfold UpdateByID, UpdateByName. cbv zeta.
  unfold bind at 1, bind at 1, bind at 1, call at 1, emit at 1, ret at 1.
  destruct (UpdateComputerExtensionAttributeByID conn id _ (remote st)) as [[c|e1] w1];
    cbn [fst snd replied data remote].
  - unfold bind at 1, ret at 1. unfold bind, modifyData. cbn [data remote]. fold updateFormat.
    now destruct (readBack conn N updateFormat N 0 [] _) as [[diags evs] st'].
  - unfold bind at 1, bind at 1, getData at 1, bind at 1, bind at 1, call, emit, ret at 1.
    cbn [data remote].
    destruct (UpdateComputerExtensionAttributeByName conn _ _ w1) as [[c|e2] w2];
      cbn [fst snd replied data remote].
    + unfold bind, ret, modifyData. cbn [data remote]. fold updateFormat.
      now destruct (readBack conn N updateFormat N 0 [] _) as [[diags evs] st'].
    + reflexivity.
Qed.

End ComputerExtensionAttributesFacts.

Section CustomDiff.

Import schema ComputerExtensionAttributes.

(** C8: the custom-diff validation returns an error exactly when the
    "input_type" list is missing or empty, or its first element is a "script"
    whose platform is neither "Mac" nor "Windows", whose script is empty or
    which has choices, or a "Pop-up Menu" without choices or with a platform
    or a script, or a "Text Field" with a script, choices or a platform.  An
    "LDAP Mapping" always passes. *)
Theorem customDiff_error_iff (diff : ResourceData) :
  (is_Some (customDiffComputerExtensionAttributes diff) <->
   GetList "input_type" diff = [] \/
   exists m rest, GetList "input_type" diff = m :: rest /\
     ((it_type m = "script" /\
       ((it_platform m <> "Mac" /\ it_platform m <> "Windows") \/
        it_script m = "" \/ it_choices m <> [])) \/
      (it_type m = "Pop-up Menu" /\
       (it_choices m = [] \/ it_platform m <> "" \/ it_script m <> "")) \/
      (it_type m = "Text Field" /\
       (it_script m <> "" \/ it_choices m <> [] \/ it_platform m <> ""))))
  /\
  (forall m rest, GetList "input_type" diff = m :: rest ->
     it_type m = "LDAP Mapping" -> customDiffComputerExtensionAttributes diff = None).
Proof.
  unfold customDiffComputerExtensionAttributes, GetOkList.
  destruct (GetList "input_type" diff) as [|m rest]; cbn [negb].
  { split; [|discriminate]. split; [now left | eauto]. }
  split.
  - assert (Hshape : forall P : InputTypeMap -> Prop,
              (exists m' rest', m :: rest = m' :: rest' /\ P m') <-> P m).
    { intros P. split; [intros (m' & rest' & [= <- <-] & HP); exact HP | eauto]. }
    rewrite (Hshape (fun m => _ \/ _ \/ _)). clear Hshape.
    repeat match goal with
           | |- context [String.eqb ?a ?b] => destruct (String.eqb_spec a b)
           end;
      destruct (it_choices m) as [|c cs]; cbn;
      (split; [intros Hs; try (destruct Hs; discriminate) | intros Hr; try (now eexists)]);
      try congruence.
    all: try (intuition congruence).
  - intros m' rest' [= <- <-] Ht. rewrite Ht. reflexivity.
Qed.

End CustomDiff.

(** ** The read of a computer extension attribute *)

Section ReadClaims.

Import schema ComputerExtensionAttributes.

Context {W : Type}.
Variable conn : Conn W.
Variable N : nat.

(** C2, as amended: after a read that returned no diagnostics, each of the
    five string attributes "name", "description", "data_type",
    "inventory_display" and "recon_display" holds the response's field when
    that field is non-empty and is unchanged when it is empty; "enabled" and
    "input_type" hold what the response has, whatever that is; every other
    attribute, and the ID, are unchanged. *)
Theorem Read_writes_response (st : State W) evs st' :
  Read conn N st = ([], evs, st') ->
  exists id a,
    Atoi (Id (data st)) = inl id /\
    fst (fst (fetch conn N 0 id (None, None) st)) = (Some a, None) /\
    Id (data st') = Id (data st) /\
    Forall (fun kf : string * (ComputerExtensionAttributeResponse -> string) =>
              attrs (data st') !! fst kf =
              if String.eqb (snd kf a) "" then attrs (data st) !! fst kf
              else Some (VString (snd kf a)))
           stringFields /\
    attrs (data st') !! "enabled" = Some (VBool (Enabled a)) /\
    attrs (data st') !! "input_type" = Some (inputTypeOf a) /\
    forall key,
      key ∉ ["name"; "enabled"; "description"; "data_type"; "input_type";
             "inventory_display"; "recon_display"] ->
      attrs (data st') !! key = attrs (data st) !! key.
Proof.
  intros H. apply Read_cases in H as [(e & _ & He & _) | (id & Hid & H)]; [discriminate|].
  destruct H as [(a & k & _ & _ & Hf & _ & Hd) | (Hd & _)]; [|discriminate].
  exists id, a. rewrite Hd, setAttributes_Id.
  do 3 (split; [assumption || reflexivity|]).
  split; [|split; [|split]].
  - unfold stringFields. repeat constructor; cbn [fst snd];
      rewrite lookup_setAttributes; unfold written;
      repeat (case_decide; [discriminate|]); (case_decide; [|congruence]);
      match goal with |- context [String.eqb ?x ""] => now destruct (String.eqb x "") end.
  - rewrite lookup_setAttributes. unfold written.
    repeat (case_decide; [discriminate|]). case_decide; [reflexivity | congruence].
  - rewrite lookup_setAttributes. unfold written. case_decide; [reflexivity | congruence].
  - intros key Hkey. rewrite !not_elem_of_cons in Hkey.
    rewrite lookup_setAttributes. unfold written.
    repeat (case_decide; [subst; intuition congruence|]). reflexivity.
Qed.


(** C4, as amended: with a stored ID that is a number, a read that returns
    diagnostics returns one generic error, made of the ID and the retry bound
    and of no error of any attempt; and a read-back loop that returns
    diagnostics returns, for each of its reads in order, a warning followed by
    that generic error. *)
Theorem Read_failure_is_generic (st : State W) id :
  Atoi (Id (data st)) = inl id ->
  (forall diags evs st', Read conn N st = (diags, evs, st') -> diags <> [] ->
     diags = fetchFailed id N)
  /\
  (forall format diags evs st',
     readBack conn N format N 0 [] st = (diags, evs, st') -> diags <> [] ->
     diags = flat_map (fun i => retryWarning format i :: fetchFailed id N) (seq 0 N)).
Proof.
  intros Hid. split.
  - intros diags evs st' H Hne. apply Read_failure_diags in H; [|assumption].
    unfold readFailure in H. now rewrite Hid in H.
  - intros format diags evs st' H Hne.
    apply readBack_shape in H as [_ [(-> & _) | (-> & _)]]; [congruence|].
    unfold readFailure. now rewrite Hid.
Qed.

End ReadClaims.

(** ** Addressing an attribute by ID, then by name *)

Section FallbackClaims.

Import schema ComputerExtensionAttributes.

Context {W : Type}.
Variable conn : Conn W.
Variable N : nat.

(** C9, as amended: read, update and delete address the attribute by its
    name when the call by ID has failed.  With a stored ID that is no number
    each of them returns an error without calling the API.  Otherwise the
    read returns an error only when the lookups by ID and by name have both
    failed, in every attempt; the delete only when the deletions by ID and by
    name have both failed; the update when the updates by ID and by name have
    both failed, and also when an update went through and all reads of the
    read-back loop returned diagnostics. *)
Theorem by_ID_then_by_name (st : State W) :
  match Atoi (Id (data st)) with
  | inr e =>
      Read conn N st = (parseFailed e, [], st) /\
      Update conn N st = (parseFailed e, [], st) /\
      Delete conn st = (parseFailed e, [], st)
  | inl id =>
      let name := GetString "name" (data st) in
      let p := constructComputerExtensionAttribute (data st) in
      (forall diags evs st', Read conn N st = (diags, evs, st') ->
         (diags = [] /\ exists k, (k < N)%nat /\
            (evs = failedAttempts id name 0 k ++ foundByID id \/
             evs = failedAttempts id name 0 k ++ foundByName id name))
         \/ (diags <> [] /\ evs = failedAttempts id name 0 N))
      /\
      (forall diags evs st', Delete conn st = (diags, evs, st') ->
         (diags = [] /\
          (evs = [EvDeleteByID id true] \/
           evs = [EvDeleteByID id false; EvDeleteByName name true]))
         \/ (diags <> [] /\ evs = [EvDeleteByID id false; EvDeleteByName name false]))
      /\
      (forall diags evs st', Update conn N st = (diags, evs, st') ->
         (diags <> [] /\ evs = [EvUpdateByID id p false; EvUpdateByName name p false])
         \/
         (exists updated readBackEvents,
            (evs = EvUpdateByID id p true :: readBackEvents \/
             evs = EvUpdateByID id p false :: EvUpdateByName name p true :: readBackEvents) /\
            Forall (fun e => isLookup e = true) readBackEvents /\
            (diags = [] \/
             diags = flat_map
                       (fun i => retryWarning updateFormat i
                                 :: readFailure N (SetId (Go.Itoa (ID updated)) (data st)))
                       (seq 0 N))))
  end.
Proof.
  destruct (Atoi (Id (data st))) as [id|e] eqn:Hid.
  2:{ rewrite Read_run, Update_run, Delete_run, Hid. now repeat split. }
  cbv zeta. split; [|split].
  - intros diags evs st' H. exact (Read_trace conn N st id diags evs st' Hid H).
  - intros diags evs st'. rewrite Delete_run, Hid. cbv zeta.
    destruct (DeleteComputerExtensionAttributeByID conn id (remote st)) as [[e1|] w1];
      cbn [fst snd].
    + destruct (DeleteComputerExtensionAttributeByNameByID conn _ w1) as [[e2|] w2];
        cbn [fst snd]; intros [= <- <- <-].
      * right. split; [discriminate | reflexivity].
      * left. split; [reflexivity | now right].
    + intros [= <- <- <-]. left. split; [reflexivity | now left].
  - intros diags evs st'. rewrite Update_run, Hid. cbv zeta.
    destruct (UpdateComputerExtensionAttributeByID conn id _ (remote st)) as [[c|e1] w1];
      cbn [fst snd].
    + destruct (readBack conn N updateFormat N 0 [] _) as [[diags2 evs2] st2] eqn:HB.
      intros [= <- <- <-]. right. exists c, evs2.
      apply readBack_shape in HB as [Hl HB]. split; [now left|]. split; [assumption|].
      destruct HB as [(-> & _) | (-> & _)]; [now left | now right].
    + destruct (UpdateComputerExtensionAttributeByName conn _ _ w1) as [[c|e2] w2];
        cbn [fst snd].
      * destruct (readBack conn N updateFormat N 0 [] _) as [[diags2 evs2] st2] eqn:HB.
        intros [= <- <- <-]. right. exists c, evs2.
        apply readBack_shape in HB as [Hl HB]. split; [now right|]. split; [assumption|].
        destruct HB as [(-> & _) | (-> & _)]; [now left | now right].
      * intros [= <- <- <-]. left. split; [discriminate | reflexivity].
Qed.

End FallbackClaims.

(** ** Reading again *)

Section Idempotence.

Import schema ComputerExtensionAttributes.

Context {W : Type}.
Variable conn : Conn W.
Variable N : nat.
Variable byID : Z -> Lookup.
Variable byName : string -> Lookup.
Hypothesis Hremote : unchanging conn byID byName.





End Idempotence.

(** ** Advanced user searches and app installers *)

Section AdvancedUserSearchesFacts.

Import schema AdvancedUserSearches.

Context {W Payload Resource : Type}.
Variable client : Client W Payload Resource.
Variable construct : ResourceData -> Payload + error.
Variable PayloadName : Payload -> string.
Variable updateTerraformState : Resource -> M Event W diag.Diagnostics.
Variable createAttempts deleteAttempts : nat.

Lemma search_deleteOnce_run id u (st : State W) :
  deleteOnce client id u st =
  (let r1 := DeleteAdvancedUserSearchByID client id (remote st) in
   match fst r1 with
   | None => ((tt, None), [EvDeleteByID id true], {| data := data st; remote := snd r1 |})
   | Some _ =>
       let name := GetString "name" (data st) in
       let r2 := DeleteAdvancedUserSearchByName client name (snd r1) in
       match fst r2 with
       | Some e =>
           ((tt, Some (retry.RetryableError e)),
            [EvDeleteByID id false; EvDeleteByName name false],
            {| data := data st; remote := snd r2 |})
       | None =>
           ((tt, None), [EvDeleteByID id false; EvDeleteByName name true],
            {| data := data st; remote := snd r2 |})
       end
   end).
Proof.
  unfold deleteOnce, DeleteByID, DeleteByName, bind, call, emit, ret, getData. cbv zeta.
  destruct (DeleteAdvancedUserSearchByID client id (remote st)) as [[e1|] w1];
    cbn [fst snd isNil data remote]; [|reflexivity].
  destruct (DeleteAdvancedUserSearchByName client _ w1) as [[e2|] w2];
    cbn [fst snd isNil data remote]; reflexivity.
Qed.

(** The retried deletion leaves the resource data alone, and ends without an
    error exactly when one of its delete calls succeeded. *)
Lemma search_delete_retried id attempts : forall u resultErr (st : State W) r evs st',
  retry.RetryContextFrom attempts (deleteOnce client id) u resultErr st = (r, evs, st') ->
  data st' = data st /\
  ((snd r = None /\ deleted evs = true) \/
   ((exists e, snd r = Some e) /\ deleted evs = false)).
Proof.
  induction attempts as [|n IH]; intros u resultErr st r evs st' H.
  - cbn in H. injection H as <- <- <-. split; [reflexivity|]. right. split; [|reflexivity].
    cbn. eauto.
  - cbn [retry.RetryContextFrom] in H. unfold bind at 1 in H.
    rewrite search_deleteOnce_run in H. cbv zeta in H.
    destruct (DeleteAdvancedUserSearchByID client id (remote st)) as [[e1|] w1];
      cbn [fst snd] in H.
    + destruct (DeleteAdvancedUserSearchByName client _ w1) as [[e2|] w2]; cbn [fst snd] in H.
      * destruct (retry.RetryContextFrom n _ _ _ _) as [[r2 evs2] st2] eqn:Hrec.
        injection H as <- <- <-. apply IH in Hrec as [Hd Hrec]. split; [assumption|].
        unfold deleted in *. cbn [app existsb orb]. exact Hrec.
      * injection H as <- <- <-. split; [reflexivity|]. left. now split.
    + injection H as <- <- <-. split; [reflexivity|]. left. now split.
Qed.





End AdvancedUserSearchesFacts.

Section AppInstallersFacts.

Import schema AppInstallers.

Context {W Payload : Type}.
Variable CreateDeploymentCall : Payload -> W -> (string + error) * W.
Variable construct : ResourceData -> Payload + error.
Variable PayloadName : Payload -> string.
Variable commonRead : bool -> M Event W diag.Diagnostics.
Variable createAttempts : nat.




End AppInstallersFacts.

(** ** Properties that span resource kinds *)

Section CrossKind.

Import schema.



End CrossKind.

(** ** The properties on sample runs *)

Section SampleRuns.

Import schema ComputerExtensionAttributes Samples.

(** C1: the attribute with ID 42 has been deleted outside Terraform, and every
    lookup is answered with not-found.  The read makes its three attempts and
    returns an error diagnostic; the stored ID is still "42". *)
Theorem Read_of_deleted_attribute :
  Read gone 3 {| data := scriptConfig; remote := 0%nat |}
  = (diag.Errorf "Failed to fetch attribute by both ID (%d) and name after %d retries"
                 [ArgInt 42; ArgInt 3],
     failedAttempts 42 "Battery" 0 3,
     {| data := scriptConfig; remote := 6%nat |})
  /\ Id scriptConfig = "42".
Proof. split; [vm_compute | ]; reflexivity. Qed.

(** C2 fails as stated: the response has an empty platform, and the read
    replaces the platform "Mac" of the state by it. *)
Lemma Read_overwrites_platform_with_empty :
  let st := {| data := scriptConfig; remote := tt |} in
  let run := Read (holding battery) 3 st in
  fst (fst run) = [] /\
  Platform (InputType battery) = "" /\
  it_platform <$> GetList "input_type" (data st) = ["Mac"] /\
  it_platform <$> GetList "input_type" (data (snd run)) = [""].
Proof. vm_compute. repeat split. Qed.

Lemma Read_writes_response_witness :
  let st := {| data := scriptConfig; remote := tt |} in
  let st' := snd (Read (holding battery) 3 st) in
  exists id a,
    Atoi (Id (data st)) = inl id /\
    fst (fst (fetch (holding battery) 3 0 id (None, None) st)) = (Some a, None) /\
    Id (data st') = Id (data st) /\
    Forall (fun kf : string * (ComputerExtensionAttributeResponse -> string) =>
              attrs (data st') !! fst kf =
              if String.eqb (snd kf a) "" then attrs (data st) !! fst kf
              else Some (VString (snd kf a)))
           stringFields /\
    attrs (data st') !! "enabled" = Some (VBool (Enabled a)) /\
    attrs (data st') !! "input_type" = Some (inputTypeOf a) /\
    forall key,
      key ∉ ["name"; "enabled"; "description"; "data_type"; "input_type";
             "inventory_display"; "recon_display"] ->
      attrs (data st') !! key = attrs (data st) !! key.
Proof.
  intros st st'.
  apply (Read_writes_response (holding battery) 3 st
           (snd (fst (Read (holding battery) 3 st)))).
  vm_compute. reflexivity.
Defined.



(** C4 fails as stated: both attempts fail, the last lookup with the error
    "3", and the read returns the generic error, which holds the ID and the
    retry bound only. *)
Lemma Read_failure_drops_last_error :
  fst (Read (flaky 100) 2 {| data := scriptConfig; remote := 0%nat |})
  = (diag.Errorf "Failed to fetch attribute by both ID (%d) and name after %d retries"
                 [ArgInt 42; ArgInt 2],
     failedAttempts 42 "Battery" 0 2)
  /\ fst (GetComputerExtensionAttributeByName (flaky 100) "Battery" 3%nat)
     = (None, Some (ApiError Transient "3")).
Proof. split; vm_compute; reflexivity. Qed.

Lemma Read_failure_is_generic_witness :
  let st := {| data := scriptConfig; remote := 0%nat |} in
  fst (fst (Read (flaky 100) 2 st)) = fetchFailed 42 2.
Proof.
  intros st.
  apply (proj1 (Read_failure_is_generic (flaky 100) 2 st 42 eq_refl)
           _ (snd (fst (Read (flaky 100) 2 st))) (snd (Read (flaky 100) 2 st))).
  - vm_compute. reflexivity.
  - vm_compute. discriminate.
Defined.




(** C9 fails as stated: after an import under the ID "abc" the read returns
    an error without a call to the API, by ID or by name, though the remote
    holds the attribute under the configured name. *)
Lemma Read_of_imported_ID_makes_no_call :
  Read (holding battery) 3 {| data := importedConfig; remote := tt |}
  = (diag.FromErr (Errorf "failed to parse attribute ID: %v"
                          [ArgErr (NumError "Atoi" "abc" Go.ErrSyntax)]),
     [],
     {| data := importedConfig; remote := tt |})
  /\ fst (GetComputerExtensionAttributeByName (holding battery)
            (GetString "name" importedConfig) tt) = (Some battery, None).
Proof. split; vm_compute; reflexivity. Qed.

Lemma by_ID_then_by_name_witness :
  let st := {| data := scriptConfig; remote := 0%nat |} in
  let run := Delete (flaky 1) st in
  (fst (fst run) = [] /\
   (snd (fst run) = [EvDeleteByID 42 true] \/
    snd (fst run) = [EvDeleteByID 42 false; EvDeleteByName "Battery" true]))
  \/ (fst (fst run) <> [] /\
      snd (fst run) = [EvDeleteByID 42 false; EvDeleteByName "Battery" false]).
Proof.
  intros st run.
  apply (proj1 (proj2 (by_ID_then_by_name (flaky 1) 3 st))
           (fst (fst run)) (snd (fst run)) (snd run)).
  vm_compute. reflexivity.
Defined.


End SampleRuns.

(** * Further properties *)

(** ** The stored ID, written and parsed *)

Section AtoiItoa.

Lemma parse_digits_acc (d : Decimal.uint) : forall p : positive,
  Go.parse_digits (Zpos p) (NilEmpty.string_of_uint d) = Some (Zpos (Pos.of_uint_acc d p)).
Proof.
  induction d; intros p; cbn [NilEmpty.string_of_uint Go.parse_digits Pos.of_uint_acc];
    [reflexivity|..];
    (match goal with |- context [Go.digit_of ?c] =>
       change (Go.digit_of c) with (Some (Z.of_N (N_of_ascii c) - 48)) end);
    cbn [N_of_ascii N_of_digits Z.of_N];
    rewrite <- IHd; f_equal; lia.
Qed.

Lemma parse_digits_uint (d : Decimal.uint) :
  Go.parse_digits 0 (NilEmpty.string_of_uint d) = Some (Z.of_N (Pos.of_uint d)).
Proof.
  induction d; cbn [NilEmpty.string_of_uint Go.parse_digits Pos.of_uint];
    [reflexivity| |..];
    (match goal with |- context [Go.digit_of ?c] =>
       change (Go.digit_of c) with (Some (Z.of_N (N_of_ascii c) - 48)) end).
  1: exact IHd.
  all: cbv beta iota; apply (parse_digits_acc d).
Qed.


Lemma NilZero_string_of_uint_pos (p : positive) :
  NilZero.string_of_uint (Pos.to_uint p) = NilEmpty.string_of_uint (Pos.to_uint p).
Proof.
  pose proof (DecimalPos.Unsigned.to_uint_nonnil p) as H.
  now destruct (Pos.to_uint p).
Qed.

(** The decimal string of a positive number starts with a digit. *)
Lemma string_of_pos_head (p : positive) :
  exists c rest, NilEmpty.string_of_uint (Pos.to_uint p) = String c rest /\
                 c <> "-"%char /\ c <> "+"%char.
Proof.
  pose proof (DecimalPos.Unsigned.to_uint_nonnil p) as H.
  destruct (Pos.to_uint p); [congruence|..]; cbn [NilEmpty.string_of_uint];
    eexists _, _; (split; [reflexivity|]); split; discriminate.
Qed.

Lemma Go_Atoi_pos (p : positive) :
  Go.Atoi (NilEmpty.string_of_uint (Pos.to_uint p)) =
  if (Zpos p <=? Go.maxInt) then inl (Zpos p) else inr Go.ErrRange.
Proof.
  pose proof (parse_digits_uint (Pos.to_uint p)) as Hp.
  rewrite DecimalPos.Unsigned.of_to in Hp. cbn [Z.of_N] in Hp.
  destruct (string_of_pos_head p) as (c & rest & Hs & Hm & Hplus).
  unfold Go.Atoi. rewrite Hs in *.
  destruct c as [[|] [|] [|] [|] [|] [|] [|] [|]]; try congruence;
    rewrite Hp; cbv beta iota zeta;
    replace (Go.minInt <=? Z.pos p) with true;
    try reflexivity; symmetry; apply Z.leb_le; unfold Go.minInt; lia.
Qed.

Lemma Atoi_Itoa_int (n : Z) :
  Go.minInt <= n <= Go.maxInt -> Atoi (Go.Itoa n) = inl n.
Proof.
  intros [Hlo Hhi]. unfold Atoi, Go.Itoa. destruct n as [|p|p].
  - reflexivity.
  - cbn [Z.to_int NilZero.string_of_int]. rewrite NilZero_string_of_uint_pos, Go_Atoi_pos.
    now replace (Z.pos p <=? Go.maxInt) with true by (symmetry; now apply Z.leb_le).
  - cbn [Z.to_int NilZero.string_of_int]. rewrite NilZero_string_of_uint_pos.
    pose proof (parse_digits_uint (Pos.to_uint p)) as Hp.
    rewrite DecimalPos.Unsigned.of_to in Hp. cbn [Z.of_N] in Hp.
    destruct (string_of_pos_head p) as (c & rest & Hs & _).
    unfold Go.Atoi. rewrite Hs in *. rewrite Hp. cbv beta iota zeta.
    change (- Z.pos p) with (Z.neg p).
    replace (Go.minInt <=? Z.neg p) with true by (symmetry; now apply Z.leb_le).
    replace (Z.neg p <=? Go.maxInt) with true by (symmetry; now apply Z.leb_le).
    reflexivity.
Qed.

(** X1: the decimal text [fmt.Sprintf("%d", n)] and [strconv.Itoa] write for
    a Go [int] is parsed back by [strconv.Atoi] to the same number: the ID a
    create or update stores is an ID the read can parse. *)
Theorem Atoi_Itoa (n : Z) :
  Go.minInt <= n <= Go.maxInt -> Atoi (Go.Itoa n) = inl n.
Proof. apply Atoi_Itoa_int. Qed.

Lemma Atoi_Itoa_witness : Atoi (Go.Itoa (-9223372036854775808)) = inl (-9223372036854775808).
Proof. apply Atoi_Itoa. split; vm_compute; discriminate. Defined.

End AtoiItoa.

(** ** More on computer extension attributes *)

Section MoreOnExtensionAttributes.

Import schema ComputerExtensionAttributes Traces.

Context {W : Type}.
Variable conn : Conn W.
Variable N : nat.

Lemma failedAttempts_snoc id name i k :
  failedAttempts id name i (S k) =
  failedAttempts id name i k ++ failedAttempt id name (i + k).
Proof.
  unfold failedAttempts. rewrite seq_S, flat_map_app. cbn [flat_map].
  now rewrite app_nil_r.
Qed.

Lemma failedAttempts_length id name i k :
  length (failedAttempts id name i k) = (3 * k)%nat.
Proof.
  revert i. induction k as [|k IH]; intros i; [reflexivity|].
  rewrite failedAttempts_S, length_app, IH. cbn [failedAttempt length]. lia.
Qed.

Lemma failedReads_length id name n i k :
  length (failedReads id name n i k) = (k * (3 * n + 1))%nat.
Proof.
  unfold failedReads. revert i. induction k as [|k IH]; intros i; [reflexivity|].
  cbn [seq flat_map]. rewrite !length_app, IH, failedAttempts_length. cbn [length]. lia.
Qed.

(** The read-back loop keeps the stored ID. *)
Lemma readBack_keeps_Id format n i acc (st : State W) diags evs st' :
  readBack conn N format n i acc st = (diags, evs, st') ->
  Id (data st') = Id (data st).
Proof.
  intros H. apply readBack_shape in H as [_ [(_ & st0 & evs0 & Hd & HR) | (_ & Hd)]].
  - pose proof (Read_keeps_Id conn N st0) as HId. rewrite HR in HId. cbn [snd] in HId.
    now rewrite HId, Hd.
  - now rewrite Hd.
Qed.

(** The trace of a read-back loop whose reads all failed, for a stored ID
    that is a number. *)
Lemma readBack_trace format id n : forall i acc (st : State W) diags evs st',
  Atoi (Id (data st)) = inl id ->
  readBack conn N format n i acc st = (diags, evs, st') ->
  diags = [] \/
  (diags = acc ++ flat_map (fun j => retryWarning format j :: fetchFailed id N) (seq i n) /\
   evs = failedReads id (GetString "name" (data st)) N i n /\
   data st' = data st).
Proof.
  induction n as [|n IH]; intros i acc st diags evs st' Hid H.
  - cbn in H. injection H as <- <- <-. right. cbn. now rewrite app_nil_r.
  - rewrite readBack_S in H. destruct (Read conn N st) as [[rd evs1] st1] eqn:HR.
    apply Read_cases in HR as [(e & He & _) | (id' & Hid' & HR)]; [congruence|].
    assert (id' = id) as -> by congruence. cbv zeta in HR.
    destruct HR as [(a & k & -> & _) | (-> & -> & Hd)].
    + injection H as <- <- <-. now left.
    + cbn [fetchFailed diag.Errorf] in H. fold (fetchFailed id N) in H.
      destruct (readBack conn N format n (S i) _ st1) as [[diags2 evs2] st2] eqn:HB.
      injection H as <- <- <-.
      apply IH in HB; [|now rewrite Hd]. destruct HB as [-> | (-> & -> & Hd2)]; [now left|].
      right. rewrite Hd. split; [|split; [|congruence]].
      * cbn [seq flat_map]. now rewrite <- !app_assoc.
      * unfold failedReads. cbn [seq flat_map]. now rewrite <- !app_assoc.
Qed.

(** X2: a read keeps the stored ID, makes lookups and pauses and no other
    call, and leaves the resource data alone whenever it returns
    diagnostics. *)
Theorem Read_invariants (st : State W) :
  let '(diags, evs, st') := Read conn N st in
  Id (data st') = Id (data st) /\
  Forall (fun e => isLookup e = true) evs /\
  (diags = [] \/ data st' = data st).
Proof.
  pose proof (Read_keeps_Id conn N st) as HId.
  destruct (Read conn N st) as [[diags evs] st'] eqn:H. cbn [snd] in HId.
  split; [assumption|]. split; [now apply Read_events_lookup in H|].
  destruct diags as [|x l]; [now left | right].
  now apply Read_failure_keeps_data in H.
Qed.

(** X3: a read that fails pauses once more after its last attempt: with a
    stored ID that is a number and a retry bound above zero, the last event
    of a read that returns diagnostics is the pause numbered
    [maxReadResourceRetries - 1]. *)
Theorem Read_pauses_after_last_attempt (st : State W) id diags evs st' :
  Atoi (Id (data st)) = inl id ->
  (0 < N)%nat ->
  Read conn N st = (diags, evs, st') ->
  diags <> [] ->
  last evs = Some (EvSleep (N - 1)).
Proof.
  intros Hid HN H Hne.
  apply (Read_trace conn N st id) in H; [|assumption]. cbv zeta in H.
  destruct H as [(-> & _) | (_ & ->)]; [congruence|].
  destruct N as [|n]; [lia|]. rewrite failedAttempts_snoc.
  change (failedAttempt id (GetString "name" (data st)) (0 + n))
    with ([EvGetByID id false; EvGetByName (GetString "name" (data st)) false]
          ++ [EvSleep n]).
  rewrite !app_assoc, last_snoc. do 2 f_equal. lia.
Qed.

(** X4: once the create call has succeeded the returned ID is stored, and it
    stays stored whatever becomes of the read-back. *)
Theorem Create_records_ID (st : State W) p created :
  constructComputerExtensionAttribute (data st) = Some p ->
  fst (CreateComputerExtensionAttribute conn p (remote st)) = Done created ->
  Id (data (snd (Create conn N st))) = Go.Itoa (ID created).
Proof.
  intros Hp Hc. rewrite Create_run, Hp. cbv zeta. rewrite Hc.
  destruct (readBack conn N createFormat N 0 [] _) as [[diags evs] st'] eqn:HB.
  cbn [snd]. apply readBack_keeps_Id in HB. now rewrite HB.
Qed.

(** X5: a create whose call succeeds and whose read-back never finds the
    attribute runs [maxReadResourceRetries] reads of [maxReadResourceRetries]
    attempts each, with a pause after every attempt and after every read,
    before it returns; its diagnostics are, for each read, a warning and the
    generic error of the read, never a failure to parse the ID; and the state
    has changed in the ID only. *)
Theorem Create_exhausts_read_back (st : State W) p created diags evs st' :
  constructComputerExtensionAttribute (data st) = Some p ->
  fst (CreateComputerExtensionAttribute conn p (remote st)) = Done created ->
  Go.minInt <= ID created <= Go.maxInt ->
  Create conn N st = (diags, evs, st') ->
  diags <> [] ->
  evs = EvCreate p true :: failedReads (ID created) (GetString "name" (data st)) N 0 N /\
  length evs = S (N * (3 * N + 1)) /\
  diags = flat_map (fun i => retryWarning createFormat i :: fetchFailed (ID created) N)
                   (seq 0 N) /\
  data st' = SetId (Go.Itoa (ID created)) (data st).
Proof.
  intros Hp Hc Hrange H Hne. rewrite Create_run, Hp in H. cbv zeta in H. rewrite Hc in H.
  destruct (readBack conn N createFormat N 0 [] _) as [[diags2 evs2] st2] eqn:HB.
  injection H as <- <- <-.
  apply (readBack_trace createFormat (ID created)) in HB;
    [|cbn [data SetId Id]; now apply Atoi_Itoa_int].
  destruct HB as [-> | (-> & -> & ->)]; [congruence|]. cbn [data].
  split; [reflexivity|]. split; [|split; reflexivity].
  cbn [length]. now rewrite failedReads_length.
Qed.

End MoreOnExtensionAttributes.

(** ** What the read writes and what construct reads *)

Section ConstructAndWrite.

Import schema ComputerExtensionAttributes.

Lemma GetString_setAttributes a d :
  Forall (fun kf : string * (ComputerExtensionAttributeResponse -> string) =>
            GetString (fst kf) (setAttributes a d) =
            if String.eqb (snd kf a) "" then GetString (fst kf) d else snd kf a)
         stringFields.
Proof.
  unfold stringFields. repeat constructor; cbn [fst snd]; unfold GetString;
    rewrite lookup_setAttributes; unfold written;
    repeat (case_decide; [discriminate|]); (case_decide; [|congruence]);
    match goal with |- context [String.eqb ?x ""] => now destruct (String.eqb x "") end.
Qed.

Lemma GetBool_enabled_setAttributes a d :
  GetBool "enabled" (setAttributes a d) = Enabled a.
Proof.
  unfold GetBool. rewrite lookup_setAttributes. unfold written.
  repeat (case_decide; [discriminate|]). case_decide; [reflexivity | congruence].
Qed.

Lemma GetList_input_type_setAttributes a d :
  GetList "input_type" (setAttributes a d) =
  [ {| it_type := Type_ (InputType a); it_platform := Platform (InputType a);
       it_script := Script (InputType a); it_choices := Choices (InputType a) |} ].
Proof.
  unfold GetList. rewrite lookup_setAttributes. unfold written.
  case_decide; [reflexivity | congruence].
Qed.

Lemma append_each (l acc : list string) :
  fold_left (fun acc choice => acc ++ [choice]) l acc = acc ++ l.
Proof.
  revert acc. induction l as [|x l IH]; intros acc; cbn [fold_left].
  - now rewrite app_nil_r.
  - now rewrite IH, <- app_assoc.
Qed.

(** The payload construct builds from a state the read has written. *)
Lemma construct_setAttributes a d :
  constructComputerExtensionAttribute (setAttributes a d) =
  Some {| ID := 0;
          Name := if String.eqb (Name a) "" then GetString "name" d else Name a;
          Enabled := Enabled a;
          Description :=
            if String.eqb (Description a) "" then GetString "description" d
            else Description a;
          DataType :=
            if String.eqb (DataType a) "" then GetString "data_type" d else DataType a;
          InputType := InputType a;
          InventoryDisplay :=
            if String.eqb (InventoryDisplay a) "" then GetString "inventory_display" d
            else InventoryDisplay a;
          ReconDisplay :=
            if String.eqb (ReconDisplay a) "" then GetString "recon_display" d
            else ReconDisplay a |}.
Proof.
  unfold constructComputerExtensionAttribute.
  rewrite GetList_input_type_setAttributes, GetBool_enabled_setAttributes.
  pose proof (GetString_setAttributes a d) as H. unfold stringFields in H.
  repeat match goal with H : Forall _ (_ :: _) |- _ =>
           apply Forall_cons in H as [? H] end.
  cbn [fst snd] in *. cbn [it_type it_platform it_script it_choices].
  rewrite append_each. cbn [app].
  repeat match goal with H : GetString _ _ = _ |- _ => rewrite H; clear H end.
  now destruct (InputType a).
Qed.

(** X6: sending back what was constructed changes nothing.  When the response
    written to the state is the payload constructed from that state, the
    payload constructed from the new state is the same payload. *)
Theorem construct_write_construct d p :
  constructComputerExtensionAttribute d = Some p ->
  constructComputerExtensionAttribute (setAttributes p d) = Some p.
Proof.
  intros H. rewrite construct_setAttributes. f_equal.
  unfold constructComputerExtensionAttribute in H.
  destruct (GetList "input_type" d) as [|m rest]; [discriminate|].
  injection H as <-. cbn.
  repeat match goal with
         | |- context [String.eqb ?x ""] => destruct (String.eqb_spec x "") as [->|]
         end; reflexivity.
Qed.

Context {W : Type}.
Variable conn : Conn W.
Variable N : nat.

(** X7: after a read that returned no diagnostics, construct never returns
    nil: the payload of an update holds the input type and the enabled flag
    of the response, each string of the response that is not empty, and what
    the state held before the read for each string that is. *)
Theorem construct_after_Read (st : State W) evs st' :
  Read conn N st = ([], evs, st') ->
  exists a p,
    data st' = setAttributes a (data st) /\
    constructComputerExtensionAttribute (data st') = Some p /\
    ID p = 0 /\ Enabled p = Enabled a /\ InputType p = InputType a /\
    Forall (fun kf : string * (ComputerExtensionAttributeResponse -> string) =>
              snd kf p = if String.eqb (snd kf a) "" then GetString (fst kf) (data st)
                         else snd kf a)
           stringFields.
Proof.
  intros H. apply Read_cases in H as [(e & _ & He & _) | (id & Hid & H)]; [discriminate|].
  destruct H as [(a & k & _ & _ & _ & _ & Hd) | (Hd & _)]; [|discriminate].
  exists a. eexists. split; [assumption|]. rewrite Hd, construct_setAttributes.
  split; [reflexivity|]. cbn. repeat split. unfold stringFields. repeat constructor.
Qed.

(** X8: a configuration that passes the custom-diff validation is one
    construct accepts, so that the create handler gets as far as its call to
    the API: the first event of its run is the create call, with the payload
    constructed from the configuration. *)
Theorem validated_config_reaches_API (st : State W) :
  customDiffComputerExtensionAttributes (data st) = None ->
  exists p ok rest,
    constructComputerExtensionAttribute (data st) = Some p /\
    snd (fst (Create conn N st)) = EvCreate p ok :: rest.
Proof.
  intros H. rewrite Create_run.
  unfold customDiffComputerExtensionAttributes, GetOkList in H.
  unfold constructComputerExtensionAttribute.
  destruct (GetList "input_type" (data st)) as [|m rest]; [discriminate|]. clear H.
  eexists. cbv zeta.
  match goal with |- context [CreateComputerExtensionAttribute conn ?p (remote st)] =>
    destruct (CreateComputerExtensionAttribute conn p (remote st)) as [[c|err] w] end;
    cbn [fst snd].
  - destruct (readBack conn N createFormat N 0 [] _) as [[diags evs] st'].
    cbn [fst snd]. now eexists _, _.
  - now eexists _, _.
Qed.

(** X9: the update does not check what construct returns.  With a stored ID
    that is a number and an empty "input_type" list it calls the API with a
    nil payload, where the create handler returns its construction error
    without a call. *)
Theorem Update_sends_nil_payload (st : State W) id :
  Atoi (Id (data st)) = inl id ->
  GetList "input_type" (data st) = [] ->
  (exists ok rest, snd (fst (Update conn N st)) = EvUpdateByID id None ok :: rest) /\
  Create conn N st = (constructFailed, [], st).
Proof.
  intros Hid Hl. split.
  - rewrite Update_run, Hid. unfold constructComputerExtensionAttribute. rewrite Hl. cbv zeta.
    destruct (UpdateComputerExtensionAttributeByID conn id None (remote st)) as [[c|e1] w1];
      cbn [fst snd].
    + destruct (readBack conn N updateFormat N 0 [] _) as [[diags evs] st'].
      cbn [fst snd]. now eexists _, _.
    + destruct (UpdateComputerExtensionAttributeByName conn _ None w1) as [[c|e2] w2];
        cbn [fst snd].
      * destruct (readBack conn N updateFormat N 0 [] _) as [[diags evs] st'].
        cbn [fst snd]. now eexists _, _.
      * now eexists _, _.
  - rewrite Create_run. unfold constructComputerExtensionAttribute. now rewrite Hl.
Qed.

(** X10: an update stores the ID of the attribute the API returns, also when
    that attribute was reached by name after the update by ID had failed, and
    keeps it whatever becomes of the read-back; when both update calls fail
    the resource data is unchanged. *)
Theorem Update_stores_returned_ID (st : State W) id :
  Atoi (Id (data st)) = inl id ->
  let p := constructComputerExtensionAttribute (data st) in
  let r1 := UpdateComputerExtensionAttributeByID conn id p (remote st) in
  let r2 := UpdateComputerExtensionAttributeByName conn (GetString "name" (data st)) p
              (snd r1) in
  let st' := snd (Update conn N st) in
  match fst r1, fst r2 with
  | Done updated, _ => Id (data st') = Go.Itoa (ID updated)
  | Failed _, Done updated => Id (data st') = Go.Itoa (ID updated)
  | Failed _, Failed _ => data st' = data st
  end.
Proof.
  intros Hid. cbv zeta. rewrite Update_run, Hid. cbv zeta.
  destruct (UpdateComputerExtensionAttributeByID conn id _ (remote st)) as [[c|e1] w1];
    cbn [fst snd].
  - destruct (readBack conn N updateFormat N 0 [] _) as [[diags evs] st'] eqn:HB.
    cbn [snd]. apply readBack_keeps_Id in HB. now rewrite HB.
  - destruct (UpdateComputerExtensionAttributeByName conn _ _ w1) as [[c|e2] w2];
      cbn [fst snd]; [|reflexivity].
    destruct (readBack conn N updateFormat N 0 [] _) as [[diags evs] st'] eqn:HB.
    cbn [snd]. apply readBack_keeps_Id in HB. now rewrite HB.
Qed.

End ConstructAndWrite.

(** ** The validation of "data_type" *)

Section DataTypeFacts.

Import regexp DataType.

Lemma matchItems_cons a items : forall n s,
  matchItems ((a, n) :: items) s = true <->
  exists pre rest,
    list_ascii_of_string s = pre ++ list_ascii_of_string rest /\
    Forall2 (fun a c => matchAtom a c = true) (repeat a n) pre /\
    matchItems items rest = true.
Proof.
  induction n as [|n IH]; intros s.
  - cbn [matchItems matchRepeat repeat]. split.
    + intros H. exists [], s. now repeat split.
    + intros (pre & rest & Hs & Hpre & Hm). apply Forall2_nil_inv_l in Hpre. subst pre.
      cbn [app] in Hs.
      assert (s = rest) as ->; [|assumption].
      now rewrite <- (string_of_list_ascii_of_string s), Hs, string_of_list_ascii_of_string.
  - cbn [matchItems matchRepeat repeat]. destruct s as [|c s].
    + split; [discriminate|]. intros (pre & rest & Hs & Hpre & _).
      destruct pre; [now apply Forall2_cons_nil_inv in Hpre | discriminate].
    + destruct (matchAtom a c) eqn:Hc.
      * specialize (IH s). cbn [matchItems] in IH. rewrite IH. split.
        -- intros (pre & rest & Hs & Hpre & Hm). exists (c :: pre), rest.
           cbn. rewrite Hs. repeat split; [|assumption]. now constructor.
        -- intros (pre & rest & Hs & Hpre & Hm).
           destruct pre as [|c' pre]; [now apply Forall2_cons_nil_inv in Hpre|].
           apply Forall2_cons_1 in Hpre as [_ Hpre]. injection Hs as <- Hs.
           now exists pre, rest.
      * split; [discriminate|]. intros (pre & rest & Hs & Hpre & _).
        destruct pre as [|c' pre]; [now apply Forall2_cons_nil_inv in Hpre|].
        apply Forall2_cons_1 in Hpre as [Hc' _]. injection Hs as <- _. congruence.
Qed.

(** A text matches a pattern exactly when it has one byte for each atom of
    the pattern, each byte matching its atom. *)
Lemma matchItems_atoms items : forall s,
  matchItems items s = true <->
  Forall2 (fun a c => matchAtom a c = true) (atoms items) (list_ascii_of_string s).
Proof.
  induction items as [|[a n] items IH]; intros s.
  - cbn. destruct s; split; try discriminate; try constructor.
    intros H. now apply Forall2_nil_inv_l in H.
  - rewrite matchItems_cons. unfold atoms. cbn [flat_map fst snd]. fold (atoms items). split.
    + intros (pre & rest & -> & Hpre & Hm). apply Forall2_app; [assumption|]. now apply IH.
    + intros H. apply Forall2_app_inv_l in H as (pre & k & Hpre & Hk & Hs).
      exists pre, (string_of_list_ascii k).
      rewrite list_ascii_of_string_of_list_ascii. repeat split; try assumption.
      apply IH. now rewrite list_ascii_of_string_of_list_ascii.
Qed.

Lemma length_list_ascii s : length (list_ascii_of_string s) = String.length s.
Proof. induction s as [|c s IH]; cbn; [reflexivity | now rewrite IH]. Qed.

(** X11: [validateDataType] never warns, and it accepts a value exactly when
    the value is "String" or "Integer" or has the 19 bytes of
    "YYYY-MM-DD hh:mm:ss": digits, with the two hyphens, the space and the
    two colons in their places.  Nothing else about a date is checked. *)
Theorem validateDataType_accepts (value key : string) :
  fst (validateDataType value key) = [] /\
  (snd (validateDataType value key) = [] <->
   value = "String" \/ value = "Integer" \/
   (String.length value = 19%nat /\
    Forall2 (fun a c => matchAtom a c = true)
      [ Digit; Digit; Digit; Digit; Literal "-"; Digit; Digit; Literal "-"; Digit; Digit;
        Literal " "; Digit; Digit; Literal ":"; Digit; Digit; Literal ":"; Digit; Digit ]
      (list_ascii_of_string value))).
Proof.
  unfold validateDataType.
  destruct (String.eqb_spec value "String") as [->|HS];
    [split; [reflexivity|]; split; [now left | reflexivity]|].
  destruct (String.eqb_spec value "Integer") as [->|HI];
    [split; [reflexivity|]; split; [now (right; left) | reflexivity]|].
  cbn [negb andb].
  pose proof (matchItems_atoms datePattern value) as Hm.
  change (atoms datePattern) with
    [ Digit; Digit; Digit; Digit; Literal "-"%char; Digit; Digit; Literal "-"%char;
      Digit; Digit; Literal " "%char; Digit; Digit; Literal ":"%char; Digit; Digit;
      Literal ":"%char; Digit; Digit ] in Hm.
  destruct (matchItems datePattern value); cbn [negb fst snd];
    (split; [reflexivity|]); split.
  - intros _. right. right. pose proof (proj1 Hm eq_refl) as HF. split; [|assumption].
    apply Forall2_length in HF. now rewrite length_list_ascii in HF.
  - reflexivity.
  - discriminate.
  - intros [?|[?|[_ HF]]]; [congruence | congruence |]. apply Hm in HF. discriminate.
Qed.

End DataTypeFacts.

(** ** Smart mobile device groups *)

Section SmartMobileGroupsFacts.

Import SmartMobileGroups.

Lemma criteria_appended (l : list CriterionData) : forall size acc,
  let c := fold_left
             (fun criteria criterionData =>
                {| Size := Size criteria;
                   Criterion := Criterion criteria ++ [criterionOf criterionData] |})
             l {| Size := size; Criterion := acc |} in
  Size c = size /\ Criterion c = acc ++ map criterionOf l.
Proof.
  induction l as [|x l IH]; intros size acc; cbn [fold_left map Size Criterion].
  - now rewrite app_nil_r.
  - destruct (IH size (acc ++ [criterionOf x])) as [HS HC].
    split; [exact HS|]. cbv zeta in HC. now rewrite HC, <- app_assoc.
Qed.

(** X12: the criteria container holds one criterion for each element of the
    configured list, in the order of the list, and its size is their number;
    an empty list gives size 0 and no criterion. *)
Theorem criteria_constructed (criteriaList : list CriterionData) :
  let criteria := constructMobileGroupSubsetContainerCriteria criteriaList in
  Criterion criteria = map criterionOf criteriaList /\
  Size criteria = Z.of_nat (length (Criterion criteria)).
Proof.
  unfold constructMobileGroupSubsetContainerCriteria. cbv zeta.
  destruct (criteria_appended criteriaList (Z.of_nat (length criteriaList)) []) as [HS HC].
  cbv zeta in HS, HC. cbn [app] in HC. split; [exact HC|].
  now rewrite HS, HC, length_map.
Qed.

End SmartMobileGroupsFacts.

(** ** More on advanced user searches *)

Section MoreOnSearches.

Import schema AdvancedUserSearches Traces.

Context {W Payload Resource : Type}.
Variable client : Client W Payload Resource.

Lemma failedDeletes_S id name k :
  failedDeletes id name (S k) =
  EvDeleteByID id false :: EvDeleteByName name false :: failedDeletes id name k.
Proof. reflexivity. Qed.

(** The trace of the retried deletion. *)
Lemma search_delete_trace id attempts : forall u resultErr (st : State W) r evs st',
  retry.RetryContextFrom attempts (deleteOnce client id) u resultErr st = (r, evs, st') ->
  let name := GetString "name" (data st) in
  (snd r = None /\ exists k, (k < attempts)%nat /\
     (evs = failedDeletes id name k ++ [EvDeleteByID id true] \/
      evs = failedDeletes id name k ++ [EvDeleteByID id false; EvDeleteByName name true]))
  \/
  ((exists e, snd r = Some e) /\ evs = failedDeletes id name attempts).
Proof.
  induction attempts as [|n IH]; intros u resultErr st r evs st' H name.
  - cbn in H. injection H as <- <- <-. right. cbn. eauto.
  - cbn [retry.RetryContextFrom] in H. unfold bind at 1 in H.
    rewrite search_deleteOnce_run in H. cbv zeta in H.
    destruct (DeleteAdvancedUserSearchByID client id (remote st)) as [[e1|] w1];
      cbn [fst snd] in H.
    + destruct (DeleteAdvancedUserSearchByName client _ w1) as [[e2|] w2]; cbn [fst snd] in H.
      * destruct (retry.RetryContextFrom n _ _ _ _) as [[r2 evs2] st2] eqn:Hrec.
        injection H as <- <- <-. apply IH in Hrec. cbn [data] in Hrec. fold name in Hrec.
        destruct Hrec as [(Hr & k & Hk & Hevs) | (Hr & ->)].
        -- left. split; [assumption|]. exists (S k). split; [lia|].
           rewrite failedDeletes_S. destruct Hevs as [-> | ->]; [left | right]; reflexivity.
        -- right. split; [assumption|]. now rewrite failedDeletes_S.
      * injection H as <- <- <-. left. split; [reflexivity|]. exists 0%nat.
        split; [lia|]. now right.
    + injection H as <- <- <-. left. split; [reflexivity|]. exists 0%nat.
      split; [lia|]. now left.
Qed.

(** X13: the delete of an advanced user search retries the pair of
    deletions, by ID and then by name.  With a stored ID that is a number,
    a run is a number of failed pairs, below the number of attempts the
    timeout leaves room for, followed by a deletion that succeeded, by ID or
    else by name; or it is that many failed pairs, and then the delete
    returns an error and the resource data is unchanged. *)
Theorem search_Delete_trace deleteAttempts (st : State W) id diags evs st' :
  Atoi (Id (data st)) = inl id ->
  Delete client deleteAttempts st = (diags, evs, st') ->
  let name := GetString "name" (data st) in
  (diags = [] /\ exists k, (k < deleteAttempts)%nat /\
     (evs = failedDeletes id name k ++ [EvDeleteByID id true] \/
      evs = failedDeletes id name k ++ [EvDeleteByID id false; EvDeleteByName name true]))
  \/
  (diags <> [] /\ evs = failedDeletes id name deleteAttempts /\ data st' = data st).
Proof.
  intros Hid H name. revert H. unfold Delete, bind at 1, getData at 1. cbn [data].
  rewrite Hid. unfold bind at 1, retry.RetryContext.
  destruct (retry.RetryContextFrom deleteAttempts _ _ _ _) as [[r evs1] st1] eqn:HR.
  pose proof (search_delete_retried client id _ _ _ _ _ _ _ HR) as [Hd _].
  apply search_delete_trace in HR. cbv zeta in HR. fold name in HR.
  destruct HR as [(Hr & k & Hk & Hevs) | ((e & Hr) & Hevs)]; rewrite Hr.
  - unfold bind, modifyData, ret. intros [= <- <- <-]. left. split; [reflexivity|].
    exists k. split; [assumption|]. rewrite !app_nil_r. assumption.
  - unfold bind, getData, ret. intros [= <- <- <-]. right. rewrite !app_nil_r.
    split; [discriminate|]. now split.
Qed.

End MoreOnSearches.

Section SearchUpdate.

Import schema AdvancedUserSearchesUpdate.

Context {W Payload Resource : Type}.
Variable client : AdvancedUserSearches.Client W Payload Resource.
Variable UpdateCall : Z -> Payload -> W -> option error * W.
Variable construct : ResourceData -> Payload + error.
Variable PayloadName : Payload -> string.
Variable updateTerraformState :
  Resource -> M AdvancedUserSearches.Event W diag.Diagnostics.
Variable updateAttempts : nat.

Lemma search_updateOnce_run id p u (st : State W) :
  updateOnce UpdateCall id p u st =
  (let r := UpdateCall id p (remote st) in
   match fst r with
   | Some e =>
       ((tt, Some (retry.RetryableError e)), [EvUpdateByID id false],
        {| data := data st; remote := snd r |})
   | None => ((tt, None), [EvUpdateByID id true], {| data := data st; remote := snd r |})
   end).
Proof.
  unfold updateOnce, UpdateByID, bind, call, emit, ret. cbv zeta.
  now destruct (UpdateCall id p (remote st)) as [[e|] w].
Qed.

Lemma search_update_retried id p attempts : forall u resultErr (st : State W) r evs st',
  retry.RetryContextFrom attempts (updateOnce UpdateCall id p) u resultErr st
  = (r, evs, st') ->
  data st' = data st /\
  ((snd r = None /\ exists k, (k < attempts)%nat /\
      evs = repeat (EvUpdateByID id false) k ++ [EvUpdateByID id true])
   \/
   ((exists e, snd r = Some e) /\ evs = repeat (EvUpdateByID id false) attempts)).
Proof.
  induction attempts as [|n IH]; intros u resultErr st r evs st' H.
  - cbn in H. injection H as <- <- <-. split; [reflexivity|]. right. cbn. eauto.
  - cbn [retry.RetryContextFrom] in H. unfold bind at 1 in H.
    rewrite search_updateOnce_run in H. cbv zeta in H.
    destruct (UpdateCall id p (remote st)) as [[e|] w]; cbn [fst snd] in H.
    + destruct (retry.RetryContextFrom n _ _ _ _) as [[r2 evs2] st2] eqn:Hrec.
      injection H as <- <- <-. apply IH in Hrec as [Hd Hrec]. split; [assumption|].
      destruct Hrec as [(Hr & k & Hk & ->) | (He & ->)].
      * left. split; [assumption|]. exists (S k). split; [lia | reflexivity].
      * right. now split.
    + injection H as <- <- <-. split; [reflexivity|]. left. split; [reflexivity|].
      exists 0%nat. split; [lia | reflexivity].
Qed.

(** X14: the update of an advanced user search checks the stored ID before
    it constructs the payload, and stops at either without a call.  It then
    repeats the update by ID, which has no fallback by name, as long as the
    timeout leaves room; when no call succeeds it returns an error and the
    resource data is unchanged, and when one does it reads the search back,
    from resource data it has not touched, and returns what the read
    returns. *)
Theorem search_Update_outcome (st : State W) diags evs st' :
  Update client UpdateCall construct PayloadName updateTerraformState updateAttempts st
  = (diags, evs, st') ->
  match Atoi (Id (data st)), construct (data st) with
  | inr _, _ | inl _, inr _ => evs = [] /\ diags <> [] /\ st' = st
  | inl id, inl p =>
      (evs = repeat (EvUpdateByID id false) updateAttempts /\ diags <> [] /\
       data st' = data st)
      \/
      (exists k w readEvents,
         (k < updateAttempts)%nat /\
         evs = repeat (EvUpdateByID id false) k
               ++ EvUpdateByID id true :: map EvRead readEvents /\
         AdvancedUserSearches.Read client updateTerraformState
           {| data := data st; remote := w |}
         = (diags, readEvents, st'))
  end.
Proof.
  unfold Update, bind at 1, getData at 1. cbn [data].
  destruct (Atoi (Id (data st))) as [id|e].
  2:{ intros [= <- <- <-]. repeat split. discriminate. }
  destruct (construct (data st)) as [p|e].
  2:{ intros [= <- <- <-]. repeat split. discriminate. }
  unfold bind at 1, retry.RetryContext.
  destruct (retry.RetryContextFrom updateAttempts _ _ _ _) as [[r evs1] st1] eqn:HR.
  apply search_update_retried in HR as [Hd [(Hr & k & Hk & ->) | ((e & Hr) & ->)]];
    rewrite Hr.
  - unfold mapEvents.
    destruct (AdvancedUserSearches.Read client updateTerraformState st1)
      as [[diags2 evs2] st2] eqn:HRead.
    intros [= <- <- <-]. right. exists k, (remote st1), evs2.
    split; [assumption|]. split; [now rewrite <- app_assoc|].
    rewrite <- Hd. now destruct st1.
  - unfold ret. intros [= <- <- <-]. left. rewrite app_nil_r.
    repeat split; [discriminate | assumption].
Qed.

End SearchUpdate.

(** ** The further properties on sample runs *)

Section MoreSampleRuns.

Import schema ComputerExtensionAttributes Traces Samples MoreSamples.

Lemma Read_pauses_after_last_attempt_witness :
  last (snd (fst (Read (flaky 100) 2 {| data := scriptConfig; remote := 0%nat |})))
  = Some (EvSleep (2 - 1)).
Proof.
  apply (Read_pauses_after_last_attempt (flaky 100) 2
           {| data := scriptConfig; remote := 0%nat |} 42
           (fst (fst (Read (flaky 100) 2 {| data := scriptConfig; remote := 0%nat |})))
           _ (snd (Read (flaky 100) 2 {| data := scriptConfig; remote := 0%nat |}))).
  - reflexivity.
  - lia.
  - vm_compute. reflexivity.
  - vm_compute. discriminate.
Defined.

Lemma Create_records_ID_witness :
  Id (data (snd (Create lostAfterCreate 2 {| data := scriptConfig; remote := 0%nat |})))
  = Go.Itoa (ID battery).
Proof.
  apply (Create_records_ID lostAfterCreate 2 {| data := scriptConfig; remote := 0%nat |}
           scriptPayload battery); vm_compute; reflexivity.
Defined.

Lemma Create_exhausts_read_back_witness :
  let st := {| data := scriptConfig; remote := 0%nat |} in
  let run := Create lostAfterCreate 2 st in
  snd (fst run) = EvCreate scriptPayload true :: failedReads 42 "Battery" 2 0 2 /\
  length (snd (fst run)) = S (2 * (3 * 2 + 1)) /\
  fst (fst run) = flat_map (fun i => retryWarning createFormat i :: fetchFailed 42 2)
                           (seq 0 2) /\
  data (snd run) = SetId (Go.Itoa 42) (data st).
Proof.
  intros st run.
  apply (Create_exhausts_read_back lostAfterCreate 2 st scriptPayload battery
           (fst (fst run)) (snd (fst run)) (snd run)).
  - vm_compute. reflexivity.
  - vm_compute. reflexivity.
  - split; vm_compute; discriminate.
  - vm_compute. reflexivity.
  - vm_compute. discriminate.
Defined.

Lemma construct_write_construct_witness :
  constructComputerExtensionAttribute (setAttributes scriptPayload scriptConfig)
  = Some scriptPayload.
Proof. apply construct_write_construct. vm_compute. reflexivity. Defined.

Lemma construct_after_Read_witness :
  let st := {| data := scriptConfig; remote := tt |} in
  let st' := snd (Read (holding battery) 3 st) in
  exists a p,
    data st' = setAttributes a (data st) /\
    constructComputerExtensionAttribute (data st') = Some p /\
    ID p = 0 /\ Enabled p = Enabled a /\ InputType p = InputType a /\
    Forall (fun kf : string * (ComputerExtensionAttributeResponse -> string) =>
              snd kf p = if String.eqb (snd kf a) "" then GetString (fst kf) (data st)
                         else snd kf a)
           stringFields.
Proof.
  intros st st'.
  apply (construct_after_Read (holding battery) 3 st
           (snd (fst (Read (holding battery) 3 st)))).
  vm_compute. reflexivity.
Defined.

Lemma validated_config_reaches_API_witness :
  let st := {| data := scriptConfig; remote := tt |} in
  exists p ok rest,
    constructComputerExtensionAttribute (data st) = Some p /\
    snd (fst (Create (holding battery) 3 st)) = EvCreate p ok :: rest.
Proof.
  intros st. apply (validated_config_reaches_API (holding battery) 3 st).
  vm_compute. reflexivity.
Defined.

Lemma Update_sends_nil_payload_witness :
  let st := {| data := bareConfig; remote := tt |} in
  (exists ok rest,
     snd (fst (Update (holding battery) 3 st)) = EvUpdateByID 42 None ok :: rest) /\
  Create (holding battery) 3 st = (constructFailed, [], st).
Proof.
  intros st. apply (Update_sends_nil_payload (holding battery) 3 st 42);
    vm_compute; reflexivity.
Defined.

Lemma Update_stores_returned_ID_witness :
  Id (data (snd (Update (flaky 1) 3 {| data := scriptConfig; remote := 0%nat |})))
  = Go.Itoa (ID battery).
Proof.
  exact (Update_stores_returned_ID (flaky 1) 3
           {| data := scriptConfig; remote := 0%nat |} 42 eq_refl).
Defined.

Lemma search_Delete_trace_witness :
  let st := {| data := scriptConfig; remote := 0%nat |} in
  let run := AdvancedUserSearches.Delete (searches (fun n => (n <? 3)%nat)) 5 st in
  (fst (fst run) = [] /\ exists k, (k < 5)%nat /\
     (snd (fst run) = failedDeletes 42 "Battery" k
                      ++ [AdvancedUserSearches.EvDeleteByID 42 true] \/
      snd (fst run) = failedDeletes 42 "Battery" k
                      ++ [AdvancedUserSearches.EvDeleteByID 42 false;
                          AdvancedUserSearches.EvDeleteByName "Battery" true]))
  \/
  (fst (fst run) <> [] /\ snd (fst run) = failedDeletes 42 "Battery" 5 /\
   data (snd run) = data st).
Proof.
  intros st run.
  apply (search_Delete_trace (searches (fun n => (n <? 3)%nat)) 5%nat st 42
           (fst (fst run)) (snd (fst run)) (snd run)).
  - reflexivity.
  - vm_compute. reflexivity.
Defined.

Lemma search_Update_outcome_witness :
  let st := {| data := scriptConfig; remote := 0%nat |} in
  let run := AdvancedUserSearchesUpdate.Update (searches (fun _ => false)) (searchUpdate 1)
               constructSearch (fun p => p) writeNothing 3 st in
  (snd (fst run) = repeat (AdvancedUserSearchesUpdate.EvUpdateByID 42 false) 3 /\
   fst (fst run) <> [] /\ data (snd run) = data st)
  \/
  (exists k w readEvents,
     (k < 3)%nat /\
     snd (fst run) = repeat (AdvancedUserSearchesUpdate.EvUpdateByID 42 false) k
                     ++ AdvancedUserSearchesUpdate.EvUpdateByID 42 true
                        :: map AdvancedUserSearchesUpdate.EvRead readEvents /\
     AdvancedUserSearches.Read (searches (fun _ => false)) writeNothing
       {| data := data st; remote := w |}
     = (fst (fst run), readEvents, snd run)).
Proof.
  intros st run.
  apply (search_Update_outcome (searches (fun _ => false)) (searchUpdate 1)
           constructSearch (fun p => p) writeNothing 3%nat st
           (fst (fst run)) (snd (fst run)) (snd run)).
  vm_compute. reflexivity.
Defined.

End MoreSampleRuns.
